(** * The document storage core: datafile markers and the transaction engine

    A shallow embedding of [arangod/VocBase/datafile.h] and
    [arangod/Utils/Transaction.cpp].  Fixed-width integers are [Z] with the
    wrap-around written out, error codes are the integer constants of the
    code, and every call into a collaborator that is declared elsewhere
    (the low-level transaction functions, the collection, the primary index,
    the key generator) goes through an explicit interface. *)

From Stdlib Require Import ZArith Lia Bool Ascii.
From stdpp Require Import base option list strings functions gmap pretty.

Local Open Scope Z_scope.

(** ** Datafile markers ([VocBase/datafile.h]) *)

Module Datafile.

(** [enum TRI_df_marker_type_e], with the values the compiler assigns. *)
Definition TRI_MARKER_MIN : Z := 999.
Definition TRI_DF_MARKER_HEADER : Z := 1000.
Definition TRI_DF_MARKER_FOOTER : Z := 1001.
Definition TRI_DF_MARKER_PROLOGUE : Z := 1002.
Definition TRI_DF_MARKER_BLANK : Z := 1100.
Definition TRI_COL_MARKER_HEADER : Z := 2000.
Definition TRI_DOC_MARKER_KEY_DOCUMENT : Z := 3007.
Definition TRI_DOC_MARKER_KEY_EDGE : Z := 3008.
Definition TRI_WAL_MARKER_BEGIN_REMOTE_TRANSACTION : Z := 4023.
Definition TRI_WAL_MARKER_COMMIT_REMOTE_TRANSACTION : Z := 4024.
Definition TRI_WAL_MARKER_ABORT_REMOTE_TRANSACTION : Z := 4025.
Definition TRI_WAL_MARKER_VPACK_DOCUMENT : Z := 5000.
Definition TRI_WAL_MARKER_VPACK_REMOVE : Z := 5001.
Definition TRI_WAL_MARKER_VPACK_CREATE_COLLECTION : Z := 5010.
Definition TRI_WAL_MARKER_VPACK_DROP_COLLECTION : Z := 5011.
Definition TRI_WAL_MARKER_VPACK_RENAME_COLLECTION : Z := 5012.
Definition TRI_WAL_MARKER_VPACK_CHANGE_COLLECTION : Z := 5013.
Definition TRI_WAL_MARKER_VPACK_CREATE_INDEX : Z := 5020.
Definition TRI_WAL_MARKER_VPACK_DROP_INDEX : Z := 5021.
Definition TRI_WAL_MARKER_VPACK_CREATE_DATABASE : Z := 5030.
Definition TRI_WAL_MARKER_VPACK_DROP_DATABASE : Z := 5031.
Definition TRI_WAL_MARKER_VPACK_BEGIN_TRANSACTION : Z := 5040.
Definition TRI_WAL_MARKER_VPACK_COMMIT_TRANSACTION : Z := 5041.
Definition TRI_WAL_MARKER_VPACK_ABORT_TRANSACTION : Z := 5042.
Definition TRI_MARKER_MAX : Z := 5043.

(** Every marker type that names a real record (the two bounds excluded). *)
Definition marker_types : list Z :=
  [ TRI_DF_MARKER_HEADER; TRI_DF_MARKER_FOOTER; TRI_DF_MARKER_PROLOGUE;
    TRI_DF_MARKER_BLANK; TRI_COL_MARKER_HEADER;
    TRI_DOC_MARKER_KEY_DOCUMENT; TRI_DOC_MARKER_KEY_EDGE;
    TRI_WAL_MARKER_BEGIN_REMOTE_TRANSACTION;
    TRI_WAL_MARKER_COMMIT_REMOTE_TRANSACTION;
    TRI_WAL_MARKER_ABORT_REMOTE_TRANSACTION;
    TRI_WAL_MARKER_VPACK_DOCUMENT; TRI_WAL_MARKER_VPACK_REMOVE;
    TRI_WAL_MARKER_VPACK_CREATE_COLLECTION;
    TRI_WAL_MARKER_VPACK_DROP_COLLECTION;
    TRI_WAL_MARKER_VPACK_RENAME_COLLECTION;
    TRI_WAL_MARKER_VPACK_CHANGE_COLLECTION;
    TRI_WAL_MARKER_VPACK_CREATE_INDEX; TRI_WAL_MARKER_VPACK_DROP_INDEX;
    TRI_WAL_MARKER_VPACK_CREATE_DATABASE;
    TRI_WAL_MARKER_VPACK_DROP_DATABASE;
    TRI_WAL_MARKER_VPACK_BEGIN_TRANSACTION;
    TRI_WAL_MARKER_VPACK_COMMIT_TRANSACTION;
    TRI_WAL_MARKER_VPACK_ABORT_TRANSACTION ].

(** [struct TRI_df_marker_t]: [_size], [_crc], [_type] of 4 bytes each, 4
    bytes of padding (written out under [TRI_PADDING_32], inserted by the
    alignment of [_tick] otherwise) and the 8 bytes of [_tick]. *)
Definition sizeof_TRI_df_marker_t : Z := 4 + 4 + 4 + 4 + 8.

(** [TRI_voc_tid_t] is declared in [VocBase/voc-types.h], which is not part
    of the sources at hand; it is the 64-bit transaction id that the keyed
    document marker stores next to [_rid]. *)
Definition sizeof_TRI_voc_tid_t : Z := 8.

(** The value of an unsigned [w]-bit object. *)
Definition wrap (w x : Z) : Z := x mod 2 ^ w.

(** [template <typename T> T AlignedSize(T value)], at an unsigned type of
    [w] bits:
    [return (value + 7) - ((value + 7) & 7);] *)
Definition AlignedSize (w value : Z) : Z :=
  wrap w (wrap w (value + 7) - Z.land (wrap w (value + 7)) 7).

(** [AlignedMarkerSize<T>]: the same computation on [size_t] (64 bits),
    cast to [T] at the end. *)
Definition AlignedMarkerSize (w marker_size : Z) : Z :=
  wrap w (AlignedSize 64 marker_size).

(** What a call yields in a build whose [TRI_ASSERT] may abort the process. *)
Inductive Checked (A : Type) : Type :=
  | Value (a : A)
  | AssertionFailure.
Arguments Value {A} a.
Arguments AssertionFailure {A}.

(** [TRI_ASSERT] is a macro of [Basics/Common.h], not part of the sources at
    hand.  Whether it is compiled in is a parameter of the build:
    [assertions = true] aborts on a false condition, [assertions = false]
    makes the macro a no-op and lets control fall through. *)
Definition TRI_ASSERT {A : Type} (assertions : bool) (cond : bool)
    (rest : Checked A) : Checked A :=
  if assertions && negb cond then AssertionFailure else rest.

(** [static inline size_t VPackOffset(TRI_df_marker_type_t type)] *)
Definition VPackOffset (assertions : bool) (type : Z) : Checked Z :=
  let t := type in
  if (t =? TRI_WAL_MARKER_VPACK_DOCUMENT) || (t =? TRI_WAL_MARKER_VPACK_REMOVE)
  then Value (sizeof_TRI_df_marker_t + sizeof_TRI_voc_tid_t)
  else TRI_ASSERT assertions false (Value 0).

(** [TRI_IsWalDataMarkerDatafile], on the marker's [_type]. *)
Definition TRI_IsWalDataMarkerDatafile (type : Z) : bool :=
  type =? TRI_WAL_MARKER_VPACK_DOCUMENT.

End Datafile.

(** ** Error numbers

    The [TRI_ERROR_*] constants come from the generated error table
    ([lib/Basics/voc-errors.h]), which is not part of the sources at hand;
    nothing below depends on more than their being pairwise distinct and
    [TRI_ERROR_NO_ERROR] being zero. *)

Module Errors.
Definition TRI_ERROR_NO_ERROR : Z := 0.
Definition TRI_ERROR_OUT_OF_MEMORY : Z := 3.
Definition TRI_ERROR_NOT_IMPLEMENTED : Z := 9.
Definition TRI_ERROR_ARANGO_CONFLICT : Z := 1200.
Definition TRI_ERROR_ARANGO_DOCUMENT_NOT_FOUND : Z := 1202.
Definition TRI_ERROR_ARANGO_COLLECTION_NOT_FOUND : Z := 1203.
Definition TRI_ERROR_ARANGO_DOCUMENT_KEY_BAD : Z := 1221.
Definition TRI_ERROR_ARANGO_DOCUMENT_TYPE_INVALID : Z := 1227.
Definition TRI_ERROR_TRANSACTION_INTERNAL : Z := 1650.
End Errors.
Export Errors.

(** ** A state monad for code that mutates what it points to *)

Module St.
Definition M (S A : Type) : Type := S -> A * S.
Definition ret {S A : Type} (a : A) : M S A := fun s => (a, s).
Definition bind {S A B : Type} (m : M S A) (k : A -> M S B) : M S B :=
  fun s => let '(a, s') := m s in k a s'.
Definition gets {S A : Type} (f : S -> A) : M S A := fun s => (f s, s).
Definition modify {S : Type} (f : S -> S) : M S unit := fun s => (tt, f s).
End St.

Declare Scope st_scope.
Delimit Scope st_scope with st.
Notation "x <- m ;; k" := (St.bind m (fun x => k))
  (at level 100, m at next level, right associativity) : st_scope.
Notation "m ;;; k" := (St.bind m (fun _ => k))
  (at level 100, right associativity) : st_scope.

(** ** Transaction state machine ([Transaction::begin], [commit], [abort]) *)

Module Txn.

(** Modelled from the spec: the status enumeration is declared in
    [VocBase/transaction.h], which is not part of the sources at hand.  The
    spec names [CREATED], [RUNNING], [COMMITTED] and [ABORTED];
    [TRI_TRANSACTION_UNDEFINED] is what [getStatus] answers for a
    transaction that has no handle. *)
Inductive TRI_transaction_status_e : Set :=
  | TRI_TRANSACTION_UNDEFINED
  | TRI_TRANSACTION_CREATED
  | TRI_TRANSACTION_RUNNING
  | TRI_TRANSACTION_COMMITTED
  | TRI_TRANSACTION_ABORTED.

#[global] Instance status_eq_dec : EqDecision TRI_transaction_status_e.
Proof. solve_decision. Defined.

(** The low-level handle [TRI_transaction_t].  Only [_status] is written
    by the code at hand; [_id] and [_collections] stand for the fields it
    never touches. *)
Record TRI_transaction_t : Type := mkHandle {
  _status : TRI_transaction_status_e;
  _id : Z;
  _collections : list Z
}.

Definition with_status (s : TRI_transaction_status_e) (h : TRI_transaction_t)
    : TRI_transaction_t :=
  {| _status := s; _id := _id h; _collections := _collections h |}.

(** What the engine can reach: the handles, by address (several nested
    [Transaction] objects share the handle of the outermost one), and the
    physical storage behind the low-level functions. *)
Record World (Storage : Type) : Type := mkWorld {
  handles : nat -> TRI_transaction_t;
  storage : Storage
}.
Arguments mkWorld {Storage} handles storage.
Arguments handles {Storage} w.
Arguments storage {Storage} w.

(** The members of [class Transaction] that the three functions read.
    [_trx = None] is the null pointer. *)
Record Transaction : Type := mkTransaction {
  _trx : option nat;
  _setupState : Z;
  _nestingLevel : Z;
  _isReal : bool;
  _hints : Z
}.

(** The low-level functions of [VocBase/transaction.h].  They are declared
    outside the sources at hand and may do anything to the world. *)
Class LowLevel (Storage : Type) : Type := {
  TRI_EnsureCollectionsTransaction :
    nat -> Z -> St.M (World Storage) Z;
  TRI_BeginTransaction : nat -> Z -> Z -> St.M (World Storage) Z;
  TRI_CommitTransaction : nat -> Z -> St.M (World Storage) Z;
  TRI_AbortTransaction : nat -> Z -> St.M (World Storage) Z
}.

Section Engine.
Context {Storage : Type} `{LL : LowLevel Storage}.
Local Open Scope st_scope.

Local Abbreviation M := (St.M (World Storage)).

(** The world after [_trx->_status = s;] through the pointer [p]. *)
Definition status_set (p : nat) (s : TRI_transaction_status_e)
    (w : World Storage) : World Storage :=
  mkWorld (<[p := with_status s (handles w p)]> (handles w)) (storage w).

(** [_trx->_status = s;] *)
Definition set_status (p : nat) (s : TRI_transaction_status_e) : M unit :=
  St.modify (status_set p s).

(** What [begin], [commit] and [abort] of a transaction that is not real do
    to the world when their guard lets them through: at the top level the
    status of the handle becomes [s], at a nested level nothing happens. *)
Definition top_level_status (t : Transaction) (p : nat)
    (s : TRI_transaction_status_e) (w : World Storage) : World Storage :=
  if _nestingLevel t =? 0 then status_set p s w else w.

(** [w'] differs from [w] in nothing but, at most, the status field of the
    handle of [t], and in that only when [t] is a top-level transaction. *)
Definition differ_in_status_of (t : Transaction) (w w' : World Storage)
    : Prop :=
  storage w' = storage w
  /\ forall q : nat,
       _id (handles w' q) = _id (handles w q)
       /\ _collections (handles w' q) = _collections (handles w q)
       /\ (_trx t <> Some q \/ _nestingLevel t <> 0 ->
           handles w' q = handles w q).

(** Modelled from the spec: [Transaction::getStatus] lives in
    [Utils/Transaction.h], which is not part of the sources at hand; it
    reads the status mirrored in the underlying handle. *)
Definition getStatus (t : Transaction) : M TRI_transaction_status_e :=
  St.gets (fun w =>
    match _trx t with
    | Some p => _status (handles w p)
    | None => TRI_TRANSACTION_UNDEFINED
    end).

(** [int Transaction::openCollections()] *)
Definition openCollections (t : Transaction) : M Z :=
  match _trx t with
  | None => St.ret TRI_ERROR_TRANSACTION_INTERNAL
  | Some p =>
    if negb (_setupState t =? TRI_ERROR_NO_ERROR) then St.ret (_setupState t)
    else if negb (_isReal t) then St.ret TRI_ERROR_NO_ERROR
    else TRI_EnsureCollectionsTransaction p (_nestingLevel t)
  end.

(** [int Transaction::begin()] *)
Definition begin (t : Transaction) : M Z :=
  match _trx t with
  | None => St.ret TRI_ERROR_TRANSACTION_INTERNAL
  | Some p =>
    if negb (_setupState t =? TRI_ERROR_NO_ERROR) then St.ret (_setupState t)
    else if negb (_isReal t) then
      (if _nestingLevel t =? 0
       then set_status p TRI_TRANSACTION_RUNNING
       else St.ret tt) ;;;
      St.ret TRI_ERROR_NO_ERROR
    else TRI_BeginTransaction p (_hints t) (_nestingLevel t)
  end.

(** [int Transaction::commit()] *)
Definition commit (t : Transaction) : M Z :=
  match _trx t with
  | None => St.ret TRI_ERROR_TRANSACTION_INTERNAL
  | Some p =>
    st <- getStatus t ;;
    if negb (bool_decide (st = TRI_TRANSACTION_RUNNING))
    then St.ret TRI_ERROR_TRANSACTION_INTERNAL
    else if negb (_isReal t) then
      (if _nestingLevel t =? 0
       then set_status p TRI_TRANSACTION_COMMITTED
       else St.ret tt) ;;;
      St.ret TRI_ERROR_NO_ERROR
    else TRI_CommitTransaction p (_nestingLevel t)
  end.

(** [int Transaction::abort()] *)
Definition abort (t : Transaction) : M Z :=
  match _trx t with
  | None => St.ret TRI_ERROR_TRANSACTION_INTERNAL
  | Some p =>
    st <- getStatus t ;;
    if negb (bool_decide (st = TRI_TRANSACTION_RUNNING))
    then St.ret TRI_ERROR_TRANSACTION_INTERNAL
    else if negb (_isReal t) then
      (if _nestingLevel t =? 0
       then set_status p TRI_TRANSACTION_ABORTED
       else St.ret tt) ;;;
      St.ret TRI_ERROR_NO_ERROR
    else TRI_AbortTransaction p (_nestingLevel t)
  end.

(** [int Transaction::finish(int errorNum)] *)
Definition finish (t : Transaction) (errorNum : Z) : M Z :=
  if errorNum =? TRI_ERROR_NO_ERROR then commit t
  else abort t ;;; St.ret errorNum.

End Engine.

(** A storage engine for running examples: the storage is a log of the
    low-level calls made, and every low-level call succeeds. *)
Definition logging (tag : Z) : St.M (World (list Z)) Z :=
  fun w => (TRI_ERROR_NO_ERROR, mkWorld (handles w) (tag :: storage w)).

#[global] Instance LoggingEngine : LowLevel (list Z) := {|
  TRI_EnsureCollectionsTransaction _ _ := logging 1;
  TRI_BeginTransaction _ _ _ := logging 2;
  TRI_CommitTransaction _ _ := logging 3;
  TRI_AbortTransaction _ _ := logging 4
|}.

(** A world whose every address holds a handle in status [s]. *)
Definition world_in (s : TRI_transaction_status_e) : World (list Z) :=
  mkWorld (fun _ => mkHandle s 0 []) [].

(** A top-level transaction that is not real, with its handle at address 0,
    and the same one level down. *)
Definition top_level : Transaction :=
  mkTransaction (Some 0%nat) TRI_ERROR_NO_ERROR 0 false 0.
Definition nested : Transaction :=
  mkTransaction (Some 0%nat) TRI_ERROR_NO_ERROR 1 false 0.

(** *** Sequences of calls

    What a caller does with a transaction object: one call after the
    other, each on the world the previous one left. *)

Inductive Call : Type :=
  | CallOpenCollections
  | CallBegin
  | CallCommit
  | CallAbort
  | CallFinish (errorNum : Z).

Section Calls.
Context {Storage : Type} `{LL : LowLevel Storage}.
Local Open Scope st_scope.

Definition call (t : Transaction) (c : Call) : St.M (World Storage) Z :=
  match c with
  | CallOpenCollections => openCollections t
  | CallBegin => begin t
  | CallCommit => commit t
  | CallAbort => abort t
  | CallFinish errorNum => finish t errorNum
  end.

Fixpoint calls (t : Transaction) (cs : list Call)
    : St.M (World Storage) (list Z) :=
  match cs with
  | [] => St.ret []
  | c :: cs =>
    r <- call t c ;;
    rs <- calls t cs ;;
    St.ret (r :: rs)
  end.

(** What a call that ends a transaction answers once the transaction is
    not running any more. *)
Definition refusal (c : Call) : Z :=
  match c with
  | CallFinish errorNum =>
    if errorNum =? TRI_ERROR_NO_ERROR then TRI_ERROR_TRANSACTION_INTERNAL
    else errorNum
  | _ => TRI_ERROR_TRANSACTION_INTERNAL
  end.

Definition ends_transaction (c : Call) : bool :=
  match c with
  | CallCommit | CallAbort | CallFinish _ => true
  | _ => false
  end.

End Calls.

End Txn.

(** ** Documents

    Structured values as the code sees them through [VPackSlice]: the type
    tests ([isNone], [isString], [isInteger], [isObject], [isArray]), [get]
    on an object and [copyString]. *)

Module VPack.

#[local] Set Warnings "-register-all".

Inductive Slice : Type :=
  | VNone                                (* [ValueType::None]: no value *)
  | VNull
  | VBool (b : bool)
  | VInt (z : Z)                         (* a signed or small integer *)
  | VUInt (z : Z)                        (* an unsigned integer *)
  | VString (s : string)
  | VArray (l : list Slice)
  | VObject (m : gmap string Slice)
  | VCustom (bytes : list Z).            (* a custom type: raw bytes *)

Definition isNone (v : Slice) : bool :=
  match v with VNone => true | _ => false end.
Definition isString (v : Slice) : bool :=
  match v with VString _ => true | _ => false end.
Definition isInteger (v : Slice) : bool :=
  match v with VInt _ | VUInt _ => true | _ => false end.
Definition isObject (v : Slice) : bool :=
  match v with VObject _ => true | _ => false end.
Definition isArray (v : Slice) : bool :=
  match v with VArray _ => true | _ => false end.

(** [value.get(attribute)]: the attribute's value, or a [None] slice. *)
Definition get (v : Slice) (k : string) : Slice :=
  match v with
  | VObject m => default VNone (m !! k)
  | _ => VNone
  end.

Definition TRI_VOC_ATTRIBUTE_KEY : string := "_key".
Definition TRI_VOC_ATTRIBUTE_REV : string := "_rev".
Definition TRI_VOC_ATTRIBUTE_ID : string := "_id".

(** [TRI_doc_mptr_copy_t]: the revision and the document it points to. *)
Record TRI_doc_mptr_copy_t : Type := mkMptr {
  _rid : Z;
  vpack : Slice
}.

(** [TRI_EXTRACT_MARKER_KEY] is a macro declared outside the sources at
    hand; it yields the key stored in the document the pointer refers to. *)
Definition TRI_EXTRACT_MARKER_KEY (d : TRI_doc_mptr_copy_t) : string :=
  match get (vpack d) TRI_VOC_ATTRIBUTE_KEY with
  | VString s => s
  | _ => ""
  end.

(** The value of an unsigned 64-bit object. *)
Definition u64 (x : Z) : Z := x mod 2 ^ 64.

(** [std::to_string] on an unsigned 64-bit number. *)
Definition to_string (x : Z) : string := pretty (Z.to_N x).

End VPack.
Export VPack.

(** ** Bulk scan helpers ([readIncremental], [any], [all], [readSlice]) *)

Module Scan.

(** Modelled from the spec: the primary index is a collaborator whose code
    is not part of the sources at hand.  It is taken as the sequence of its
    documents in the index's native order; a [BucketPosition] is the cursor
    of one traversal, owned by the caller and advanced by every lookup that
    finds a document: the number of documents the traversal has handed out
    so far.  A freshly constructed position is [0]. *)
Abbreviation PrimaryIndex := (list TRI_doc_mptr_copy_t).
Abbreviation BucketPosition := nat.

(** Modelled from the spec: [lookupSequential(txn, &cursor, &totalSeen)],
    the next document in native order or nothing at the end; the first call
    of a traversal reports the number of documents. *)
Definition lookupSequential (idx : PrimaryIndex) (position : BucketPosition)
    (total : Z) : option TRI_doc_mptr_copy_t * BucketPosition * Z :=
  let total := if decide (position = 0%nat) then Z.of_nat (length idx)
               else total in
  match idx !! position with
  | Some d => (Some d, S position, total)
  | None => (None, position, total)
  end.

(** Modelled from the spec: [lookupSequentialReverse(txn, &cursor)], the
    same traversal from the end of the index towards its beginning. *)
Definition lookupSequentialReverse (idx : PrimaryIndex)
    (position : BucketPosition) : option TRI_doc_mptr_copy_t * BucketPosition :=
  match reverse idx !! position with
  | Some d => (Some d, S position)
  | None => (None, position)
  end.

(** What the environment of one call decides: what [this->lock] answers,
    whether [orderDitch] hands out a ditch, how many elements a vector can
    hold before its allocation fails, and whether [TRI_ASSERT] is compiled
    in. *)
Record Env : Type := mkEnv {
  lock_result : Z;
  ditch_ordered : bool;
  memory : nat;
  assertions : bool
}.

(** What a call leaves behind for its caller: the output vector, the
    [total] counter passed by reference, and the number of read locks on
    the collection that the helpers have taken and not given back. *)
Record Scan : Type := mkScan {
  docs : list TRI_doc_mptr_copy_t;
  total : Z;
  held : Z
}.

(** How a helper is left. *)
Inductive Exit : Type :=
  | Return (code : Z)     (* [return code;] *)
  | Throw                 (* an exception leaves the function *)
  | Abort                 (* a failed [TRI_ASSERT] *)
  | Exhausted.            (* the loop budget of the model ran out *)

(** How a loop is left. *)
Inductive Loop : Type := Finished | Threw | OutOfFuel.

(** Modelled from the spec: [Transaction::lock] and [unlock] are declared
    in [Utils/Transaction.h], not part of the sources at hand.  A successful
    [lock] takes the read lock, a failed one takes nothing; [unlock] gives
    one back. *)
Definition lock (env : Env) (s : Scan) : Z * Scan :=
  if lock_result env =? TRI_ERROR_NO_ERROR
  then (TRI_ERROR_NO_ERROR, mkScan (docs s) (total s) (held s + 1))
  else (lock_result env, s).

Definition unlock (s : Scan) : Scan :=
  mkScan (docs s) (total s) (held s - 1).

(** [orderDitch(trxCollection) == nullptr] *)
Definition orderDitch_failed (env : Env) : bool := negb (ditch_ordered env).

(** [v.emplace_back(x)]: [None] when the allocation throws. *)
Definition emplace_back {A : Type} (env : Env) (v : list A) (x : A)
    : option (list A) :=
  if decide (length v < memory env)%nat then Some (v ++ [x]) else None.

(** [v.reserve(n)]: [false] when the allocation throws. *)
Definition reserve (env : Env) (n : Z) : bool :=
  bool_decide (n <= Z.of_nat (memory env)).

(** The loop of [readIncremental]:
    [while (count < batchSize || skip > 0) { ... }] *)
Fixpoint readIncremental_loop (fuel : nat) (env : Env) (idx : PrimaryIndex)
    (batchSize limit : Z) (count : Z) (internalSkip : BucketPosition)
    (skip : Z) (s : Scan) : Loop * BucketPosition * Z * Scan :=
  match fuel with
  | O => (OutOfFuel, internalSkip, skip, s)
  | S fuel =>
    if (count <? batchSize) || (0 <? skip) then
      let '(mptr, internalSkip, total') :=
        lookupSequential idx internalSkip (total s) in
      let s := mkScan (docs s) total' (held s) in
      match mptr with
      | None => (Finished, internalSkip, skip, s)
      | Some d =>
        if 0 <? skip then
          readIncremental_loop fuel env idx batchSize limit count
            internalSkip (skip - 1) s
        else
          match emplace_back env (docs s) d with
          | None => (Threw, internalSkip, skip, s)
          | Some docs' =>
            let s := mkScan docs' (total s) (held s) in
            let count := u64 (count + 1) in
            if limit <=? count then (Finished, internalSkip, skip, s)
            else readIncremental_loop fuel env idx batchSize limit count
                   internalSkip skip s
          end
      end
    else (Finished, internalSkip, skip, s)
  end.

(** [int Transaction::readIncremental(trxCollection, docs, internalSkip,
    batchSize, skip, limit, total)] *)
Definition readIncremental (env : Env) (idx : PrimaryIndex)
    (internalSkip : BucketPosition) (batchSize skip limit : Z) (s : Scan)
    : Exit * BucketPosition * Z * Scan :=
  let '(res, s) := lock env s in
  if negb (res =? TRI_ERROR_NO_ERROR) then (Return res, internalSkip, skip, s)
  else if orderDitch_failed env
  then (Return TRI_ERROR_OUT_OF_MEMORY, internalSkip, skip, s)
  else
    (* try { *)
    let reserved :=
      if 2048 <? batchSize then reserve env 2048
      else if 0 <? batchSize then reserve env batchSize
      else true in
    let '(l, internalSkip, skip, s) :=
      if reserved
      then readIncremental_loop (S (length idx)) env idx batchSize limit 0
             internalSkip skip s
      else (Threw, internalSkip, skip, s) in
    match l with
    | Threw =>
      (* } catch (...) { *)
      (Return TRI_ERROR_OUT_OF_MEMORY, internalSkip, skip, unlock s)
    | Finished => (Return TRI_ERROR_NO_ERROR, internalSkip, skip, unlock s)
    | OutOfFuel => (Exhausted, internalSkip, skip, s)
    end.

(** The cursor of a random traversal: [initialPosition], [position], [step]
    and [total], all passed by reference. *)
Record RandomCursor : Type := mkRandomCursor {
  initialPosition : BucketPosition;
  rposition : BucketPosition;
  step : Z;
  rtotal : Z
}.

Section Random.
(** [lookupRandom] of the primary index: a collaborator declared outside
    the sources at hand, taken as it comes. *)
Variable lookupRandom :
  PrimaryIndex -> RandomCursor -> option TRI_doc_mptr_copy_t * RandomCursor.

(** The loop of [any]: [while (numRead < batchSize) { ... }] *)
Fixpoint any_loop (fuel : nat) (env : Env) (idx : PrimaryIndex)
    (batchSize numRead : Z) (c : RandomCursor) (s : Scan)
    : Loop * RandomCursor * Scan :=
  match fuel with
  | O => (OutOfFuel, c, s)
  | S fuel =>
    if numRead <? batchSize then
      let '(mptr, c) := lookupRandom idx c in
      match mptr with
      | None => (Finished, c, s)
      | Some d =>
        match emplace_back env (docs s) d with
        | None => (Threw, c, s)
        | Some docs' =>
          any_loop fuel env idx batchSize (u64 (numRead + 1)) c
            (mkScan docs' (total s) (held s))
        end
      end
    else (Finished, c, s)
  end.

(** [int Transaction::any(trxCollection, docs, initialPosition, position,
    batchSize, step, total)] *)
Definition any (env : Env) (idx : PrimaryIndex) (batchSize : Z)
    (c : RandomCursor) (s : Scan) : Exit * RandomCursor * Scan :=
  let '(res, s) := lock env s in
  if negb (res =? TRI_ERROR_NO_ERROR) then (Return res, c, s)
  else if orderDitch_failed env then (Return TRI_ERROR_OUT_OF_MEMORY, c, s)
  else if assertions env && negb (0 <? batchSize) then (Abort, c, s)
  else
    match any_loop (S (Z.to_nat batchSize)) env idx batchSize 0 c s with
    | (Finished, c, s) => (Return TRI_ERROR_NO_ERROR, c, unlock s)
    | (Threw, c, s) => (Throw, c, s)
    | (OutOfFuel, c, s) => (Exhausted, c, s)
    end.

(** [int Transaction::any(trxCollection, mptr)]: one random document,
    copied to [*mptr] when there is one.  The output pointer is a value
    here, so the assertion that it is not null has nothing to test. *)
Definition any_one (env : Env) (idx : PrimaryIndex)
    (mptr : TRI_doc_mptr_copy_t) (s : Scan)
    : Exit * TRI_doc_mptr_copy_t * Scan :=
  let '(res, s) := lock env s in
  if negb (res =? TRI_ERROR_NO_ERROR) then (Return res, mptr, s)
  else if orderDitch_failed env
  then (Return TRI_ERROR_OUT_OF_MEMORY, mptr, s)
  else
    let '(found, _) := lookupRandom idx (mkRandomCursor 0 0 0 0) in
    let mptr := match found with Some d => d | None => mptr end in
    (Return TRI_ERROR_NO_ERROR, mptr, unlock s).
End Random.

(** The loop of [all]: [while (true) { ... }] *)
Fixpoint all_loop (fuel : nat) (env : Env) (idx : PrimaryIndex)
    (step : BucketPosition) (total : Z) (ids : list string)
    : Loop * list string :=
  match fuel with
  | O => (OutOfFuel, ids)
  | S fuel =>
    let '(mptr, step, total) := lookupSequential idx step total in
    match mptr with
    | None => (Finished, ids)
    | Some d =>
      match emplace_back env ids (TRI_EXTRACT_MARKER_KEY d) with
      | None => (Threw, ids)
      | Some ids' => all_loop fuel env idx step total ids'
      end
    end
  end.

(** [int Transaction::all(trxCollection, ids, lock)] *)
Definition all (env : Env) (idx : PrimaryIndex) (ids : list string)
    (lock_ : bool) (s : Scan) : Exit * list string * Scan :=
  let '(res, s) := if lock_ then lock env s else (TRI_ERROR_NO_ERROR, s) in
  if lock_ && negb (res =? TRI_ERROR_NO_ERROR) then (Return res, ids, s)
  else if orderDitch_failed env then (Return TRI_ERROR_OUT_OF_MEMORY, ids, s)
  else
    let used := Z.of_nat (length idx) in
    let '(l, ids) :=
      if 0 <? used then all_loop (S (length idx)) env idx 0%nat 0 ids
      else (Finished, ids) in
    match l with
    | Finished =>
      (Return TRI_ERROR_NO_ERROR, ids, if lock_ then unlock s else s)
    | Threw => (Throw, ids, s)
    | OutOfFuel => (Exhausted, ids, s)
    end.

(** First loop of the [skip < 0] branch of [readSlice]:
    [do { mptr = idx->lookupSequentialReverse(this, position); ++skip; }
     while (skip < 0 && mptr != nullptr);]
    [None] is the exhausted loop budget. *)
Fixpoint readSlice_skip_back (fuel : nat) (idx : PrimaryIndex)
    (position : BucketPosition) (skip : Z)
    : option (option TRI_doc_mptr_copy_t * BucketPosition * Z) :=
  match fuel with
  | O => None
  | S fuel =>
    let '(mptr, position) := lookupSequentialReverse idx position in
    let skip := skip + 1 in
    if (skip <? 0) && bool_decide (is_Some mptr)
    then readSlice_skip_back fuel idx position skip
    else Some (mptr, position, skip)
  end.

(** Second loop of the [skip < 0] branch:
    [do { mptr = idx->lookupSequentialReverse(this, position);
          if (mptr == nullptr) break;
          ++count; docs.emplace_back( *mptr ); } while (count < limit);] *)
Fixpoint readSlice_collect_back (fuel : nat) (env : Env) (idx : PrimaryIndex)
    (limit : Z) (position : BucketPosition) (count : Z) (s : Scan)
    : Loop * Scan :=
  match fuel with
  | O => (OutOfFuel, s)
  | S fuel =>
    let '(mptr, position) := lookupSequentialReverse idx position in
    match mptr with
    | None => (Finished, s)
    | Some d =>
      let count := u64 (count + 1) in
      match emplace_back env (docs s) d with
      | None => (Threw, s)
      | Some docs' =>
        let s := mkScan docs' (total s) (held s) in
        if count <? limit
        then readSlice_collect_back fuel env idx limit position count s
        else (Finished, s)
      end
    end
  end.

(** How the forward skipping loop is left. *)
Inductive Skipped : Type :=
  | Passed (position : BucketPosition) (total : Z)   (* [skip] reached 0 *)
  | TooFew (total : Z)                               (* the index ran out *)
  | SkipOutOfFuel.

(** The skipping loop of the [skip >= 0] branch:
    [while (skip > 0) { mptr = idx->lookupSequential(this, position, total);
                        --skip; if (mptr == nullptr) { unlock; return; } }] *)
Fixpoint readSlice_skip (fuel : nat) (idx : PrimaryIndex)
    (position : BucketPosition) (skip : Z) (total : Z) : Skipped :=
  match fuel with
  | O => SkipOutOfFuel
  | S fuel =>
    if 0 <? skip then
      let '(mptr, position, total) := lookupSequential idx position total in
      let skip := skip - 1 in
      match mptr with
      | None => TooFew total
      | Some _ => readSlice_skip fuel idx position skip total
      end
    else Passed position total
  end.

(** The collecting loop of the [skip >= 0] branch:
    [do { mptr = idx->lookupSequential(this, position, total);
          if (mptr == nullptr) break;
          ++count; docs.emplace_back( *mptr ); } while (count < limit);] *)
Fixpoint readSlice_collect (fuel : nat) (env : Env) (idx : PrimaryIndex)
    (limit : Z) (position : BucketPosition) (count : Z) (s : Scan)
    : Loop * Scan :=
  match fuel with
  | O => (OutOfFuel, s)
  | S fuel =>
    let '(mptr, position, total') :=
      lookupSequential idx position (total s) in
    let s := mkScan (docs s) total' (held s) in
    match mptr with
    | None => (Finished, s)
    | Some d =>
      let count := u64 (count + 1) in
      match emplace_back env (docs s) d with
      | None => (Threw, s)
      | Some docs' =>
        let s := mkScan docs' (total s) (held s) in
        if count <? limit
        then readSlice_collect fuel env idx limit position count s
        else (Finished, s)
      end
    end
  end.

(** How a collecting loop of [readSlice] ends the call: the lock is given
    back after the loop; an exception from [emplace_back] is not caught. *)
Definition readSlice_finish (r : Loop * Scan) : Exit * Scan :=
  match r with
  | (Finished, s) => (Return TRI_ERROR_NO_ERROR, unlock s)
  | (Threw, s) => (Throw, s)
  | (OutOfFuel, s) => (Exhausted, s)
  end.

(** [int Transaction::readSlice(trxCollection, docs, skip, limit, total)];
    [skip] is a signed 64-bit number, [limit] an unsigned one. *)
Definition readSlice (env : Env) (idx : PrimaryIndex) (skip limit : Z)
    (s : Scan) : Exit * Scan :=
  if limit =? 0 then (Return TRI_ERROR_NO_ERROR, s)
  else
    let '(res, s) := lock env s in
    if negb (res =? TRI_ERROR_NO_ERROR) then (Return res, s)
    else if orderDitch_failed env then (Return TRI_ERROR_OUT_OF_MEMORY, s)
    else
      let count := 0 in
      let fuel := S (length idx) in
      if skip <? 0 then
        match readSlice_skip_back fuel idx 0%nat skip with
        | None => (Exhausted, s)
        | Some (None, _, _) => (Return TRI_ERROR_NO_ERROR, unlock s)
        | Some (Some _, position, _) =>
          readSlice_finish
            (readSlice_collect_back fuel env idx limit position count s)
        end
      else
        match readSlice_skip fuel idx 0%nat skip (total s) with
        | SkipOutOfFuel => (Exhausted, s)
        | TooFew total' =>
          (Return TRI_ERROR_NO_ERROR, unlock (mkScan (docs s) total' (held s)))
        | Passed position total' =>
          readSlice_finish
            (readSlice_collect fuel env idx limit position count
               (mkScan (docs s) total' (held s)))
        end.

(** Five documents [A] to [E], in the order of their insertion. *)
Definition doc (key : string) (rid : Z) : TRI_doc_mptr_copy_t :=
  mkMptr rid (VObject {[ TRI_VOC_ATTRIBUTE_KEY := VString key ]}).
Definition docA := doc "A" 1.
Definition docB := doc "B" 2.
Definition docC := doc "C" 3.
Definition docD := doc "D" 4.
Definition docE := doc "E" 5.
Definition five : PrimaryIndex := [docA; docB; docC; docD; docE].

(** An environment in which nothing fails. *)
Definition calm : Env := mkEnv TRI_ERROR_NO_ERROR true 1000 true.

(** A caller that holds no lock and has collected nothing. *)
Definition idle : Scan := mkScan [] 0 0.

(** The caller's state once the helper holds the read lock. *)
Definition locked (s : Scan) : Scan := mkScan (docs s) (total s) (held s + 1).

(** An environment in which the lock is granted and no ditch is handed
    out. *)
Definition no_ditch (memory : nat) (assertions : bool) : Env :=
  mkEnv TRI_ERROR_NO_ERROR false memory assertions.

(** How many documents one call of [readIncremental] collects at most, once
    [count] are collected: the loop goes on while [count < batchSize], and
    stops after a document when the count has reached [limit], so that
    [limit = 0] still lets one document through. *)
Definition quota (batchSize limit count : Z) : nat :=
  Z.to_nat (if count <? batchSize
            then Z.max 1 (Z.min batchSize limit - count)
            else 0).

(** How the lock stands after a call: as before when the call returned,
    one more held when an exception went through. *)
Definition lock_accounted (held_before : Z) (exit : Exit) (s' : Scan) : Prop :=
  match exit with
  | Return _ => held s' = held_before
  | Throw => held s' = held_before + 1
  | Abort | Exhausted => False
  end.

End Scan.

(** ** Document operations ([documentLocal], [insertLocal], [removeLocal]) *)

Module Crud.

(** What ends a call other than a [return]: an exception, or the abort
    of a failed [TRI_ASSERT]. *)
Inductive Raised : Type :=
  | ArangoException (code : Z)      (* [THROW_ARANGO_EXCEPTION(code)] *)
  | VPackException                  (* raised inside the value library *)
  | FailedAssertion.                (* [TRI_ASSERT] aborts *)

Inductive Outcome (A : Type) : Type :=
  | Returned (a : A)
  | Thrown (e : Raised).
Arguments Returned {A} a.
Arguments Thrown {A} e.

(** [OperationResult(code)] carries no buffer, [OperationResult(code,
    buffer)] carries the built value. *)
Record OperationResult : Type := mkResult {
  code : Z;
  buffer : option Slice
}.
Definition OperationResult_error (c : Z) : OperationResult := mkResult c None.
Definition OperationResult_ok (v : Slice) : OperationResult :=
  mkResult TRI_ERROR_NO_ERROR (Some v).

Record OperationOptions : Type := mkOptions { waitForSync : bool }.

Inductive TRI_transaction_type_e : Set :=
  | TRI_TRANSACTION_READ
  | TRI_TRANSACTION_WRITE.

Inductive TRI_doc_update_policy_e : Set :=
  | TRI_DOC_UPDATE_ERROR
  | TRI_DOC_UPDATE_LAST_WRITE.

(** [TRI_doc_update_policy_t(policy, expectedRevision, &actualRevision)];
    the revision written through the pointer is what [remove] hands back. *)
Record TRI_doc_update_policy_t : Type := mkPolicy {
  _policy : TRI_doc_update_policy_e;
  _expectedRid : Z
}.

(** The collaborators of the three operations, all declared outside the
    sources at hand: the collection name resolver, the server role, whether
    [TRI_ASSERT] is compiled in, the status of the transaction, the
    string-to-number helper, the ditch, the lock table, the collection's
    [read] / [insert] / [remove], its key generator and the tick server.
    [W] is whatever state they keep. *)
Class Collaborators (W : Type) : Type := {
  getCollectionId : string -> Z;
  isCoordinator : bool;
  assertions : bool;
  isRunning : W -> bool;     (* [getStatus() == TRI_TRANSACTION_RUNNING] *)
  StringUtils_uint64 : string -> Z;
  orderDitch : Z -> W -> bool * W;            (* [false]: [nullptr] *)
  isLocked : Z -> TRI_transaction_type_e -> W -> bool;
  document_read : Z -> string -> bool -> W -> Z * TRI_doc_mptr_copy_t * W;
  document_insert :
    Z -> Slice -> bool -> bool -> W -> Z * TRI_doc_mptr_copy_t * W;
  document_remove :
    Z -> Slice -> TRI_doc_update_policy_t -> bool -> bool -> W -> Z * Z * W;
  keyGenerator_generate : Z -> Z -> string;
  keyGenerator_validate : Z -> string -> bool -> Z;
  TRI_NewTickServer : W -> Z * W
}.

(** [copyString] on a slice already known to be a string. *)
Definition copyString (v : Slice) : string :=
  match v with VString s => s | _ => "" end.

(** Modelled from the spec: [getNumber<TRI_voc_rid_t>] belongs to the value
    library, whose code is not part of the sources at hand.  The spec
    accepts an integer [_rev] as the revision; an integer that the unsigned
    64-bit revision type cannot hold makes the library raise. *)
Definition getNumber_rid (v : Slice) : Outcome Z :=
  match v with
  | VInt z | VUInt z =>
    if (0 <=? z) && (z <? 2 ^ 64) then Returned z else Thrown VPackException
  | _ => Thrown VPackException
  end.

(** Modelled from the spec: [MarkerHelper::storeNumber<T>(dest, value,
    length)] is declared in [Storage/Marker.h], not part of the sources at
    hand: the fixed-width encoding of a number in [length] bytes, least
    significant byte first. *)
Fixpoint storeNumber (value : Z) (length : nat) : list Z :=
  match length with
  | O => []
  | S n => Z.land value 255 :: storeNumber (Z.shiftr value 8) n
  end.

(** The inverse reading of such an encoding. *)
Fixpoint readNumber (bytes : list Z) : Z :=
  match bytes with
  | [] => 0
  | b :: rest => b + 256 * readNumber rest
  end.

(** Modelled from the spec: [VPackCollection::merge(left, right, false,
    false)] belongs to the value library: the attributes of both objects,
    and where both have an attribute the value of [right] is taken. *)
Definition VPackCollection_merge (left right : gmap string Slice)
    : gmap string Slice :=
  right ∪ left.

Section Operations.
Context {W : Type} `{C : Collaborators W}.

(** The block that [documentLocal] and [removeLocal] both run on the
    [_rev] attribute [r] of an object; [expectedRevision] starts as 0:
    [if (!r.isNone()) {
       if (r.isString()) expectedRevision = StringUtils::uint64(r.copyString());
       else if (r.isInteger()) expectedRevision = r.getNumber<TRI_voc_rid_t>();
     }] *)
Definition extract_rev (r : Slice) : Outcome Z :=
  if negb (isNone r) then
    if isString r then Returned (StringUtils_uint64 (copyString r))
    else if isInteger r then getNumber_rid r
    else Returned 0
  else Returned 0.


(** How the extraction of [_key] and [_rev] ends. *)
Inductive Extracted : Type :=
  | Key (key : string) (expectedRevision : Z)
  | Reject (code : Z)
  | Raise (e : Raised).

(** [documentLocal], from [std::string key;] to the end of the
    extraction. *)
Definition documentLocal_extract (value : Slice) : Extracted :=
  if isObject value then
    let k := get value TRI_VOC_ATTRIBUTE_KEY in
    if negb (isString k) then Reject TRI_ERROR_ARANGO_DOCUMENT_KEY_BAD
    else
      let key := copyString k in
      let r := get value TRI_VOC_ATTRIBUTE_REV in
      match extract_rev r with
      | Returned expectedRevision => Key key expectedRevision
      | Thrown e => Raise e
      end
  else if isString value then Key (copyString value) 0
  else Reject TRI_ERROR_ARANGO_DOCUMENT_KEY_BAD.

(** [OperationResult Transaction::documentLocal(collectionName, value,
    options)] *)
Definition documentLocal (collectionName : string) (value : Slice)
    (options : OperationOptions) (w : W) : Outcome OperationResult * W :=
  let cid := getCollectionId collectionName in
  if cid =? 0
  then (Returned (OperationResult_error TRI_ERROR_ARANGO_COLLECTION_NOT_FOUND), w)
  else
    match documentLocal_extract value with
    | Reject c => (Returned (OperationResult_error c), w)
    | Raise e => (Thrown e, w)
    | Key key expectedRevision =>
      let '(ditch, w) := orderDitch cid w in
      if negb ditch
      then (Returned (OperationResult_error TRI_ERROR_OUT_OF_MEMORY), w)
      else
        let '(res, mptr, w) :=
          document_read cid key
            (negb (isLocked cid TRI_TRANSACTION_READ w)) w in
        if negb (res =? TRI_ERROR_NO_ERROR)
        then (Returned (OperationResult_error res), w)
        else if negb (expectedRevision =? 0)
                && negb (expectedRevision =? _rid mptr)
        then (Returned (OperationResult_error TRI_ERROR_ARANGO_CONFLICT), w)
        else (Returned (OperationResult_ok (vpack mptr)), w)
    end.

(** [OperationResult Transaction::document(collectionName, value,
    options)]; the coordinator variant throws "not implemented". *)
Definition document (collectionName : string) (value : Slice)
    (options : OperationOptions) (w : W) : Outcome OperationResult * W :=
  if assertions && negb (isRunning w) then (Thrown FailedAssertion, w)
  else if negb (isObject value) && negb (isArray value)
  then (Thrown (ArangoException TRI_ERROR_ARANGO_DOCUMENT_TYPE_INVALID), w)
  else if isArray value
  then (Thrown (ArangoException TRI_ERROR_NOT_IMPLEMENTED), w)
  else if isCoordinator
  then (Thrown (ArangoException TRI_ERROR_NOT_IMPLEMENTED), w)
  else documentLocal collectionName value options w.

(** How the assembly of the attributes to add ends. *)
Inductive Built : Type :=
  | Merge (merge : gmap string Slice)
  | Refuse (code : Z).

(** [insertLocal], from [VPackBuilder merge;] to [merge.close();]: the
    attributes [_key] (when missing), [_rev] and [_id]. *)
Definition insertLocal_merge (cid tick : Z) (value : Slice) : Built :=
  let merge : gmap string Slice := ∅ in
  let key := get value TRI_VOC_ATTRIBUTE_KEY in
  let with_key : Built :=
    if isNone key then
      Merge (<[TRI_VOC_ATTRIBUTE_KEY :=
               VString (keyGenerator_generate cid tick)]> merge)
    else if negb (isString key)
    then Refuse TRI_ERROR_ARANGO_DOCUMENT_KEY_BAD
    else
      let res := keyGenerator_validate cid (copyString key) false in
      if negb (res =? TRI_ERROR_NO_ERROR) then Refuse res else Merge merge in
  match with_key with
  | Refuse c => Refuse c
  | Merge merge =>
    let merge := <[TRI_VOC_ATTRIBUTE_REV := VString (to_string tick)]> merge in
    let merge :=
      <[TRI_VOC_ATTRIBUTE_ID := VCustom (243 :: storeNumber cid 8)]> merge in
    Merge merge
  end.

(** [insertLocal], from [orderDitch] to the end: the physical insert of
    [insertSlice] and the result built from the stored document. *)
Definition insertLocal_store (cid : Z) (collectionName : string)
    (insertSlice : Slice) (options : OperationOptions) (w : W)
    : Outcome OperationResult * W :=
  let '(ditch, w) := orderDitch cid w in
  if negb ditch
  then (Returned (OperationResult_error TRI_ERROR_OUT_OF_MEMORY), w)
  else
    let '(res, mptr, w) :=
      document_insert cid insertSlice
        (negb (isLocked cid TRI_TRANSACTION_WRITE w))
        (waitForSync options) w in
    if negb (res =? TRI_ERROR_NO_ERROR)
    then (Returned (OperationResult_error res), w)
    else
      let vpack := vpack mptr in
      let k := get vpack TRI_VOC_ATTRIBUTE_KEY in
      let r := get vpack TRI_VOC_ATTRIBUTE_REV in
      if negb (isString k) || negb (isString r)
      then (Thrown VPackException, w)
      else
        let resultKey := copyString k in
        (Returned (OperationResult_ok (VObject
           (<[TRI_VOC_ATTRIBUTE_KEY := VString resultKey]>
            (<[TRI_VOC_ATTRIBUTE_REV := VString (copyString r)]>
             (<[TRI_VOC_ATTRIBUTE_ID :=
                VString (collectionName +:+ "/" +:+ resultKey)]> ∅))))), w).

(** [OperationResult Transaction::insertLocal(collectionName, value,
    options)]; asking a value that is no object for an attribute makes
    the value library raise. *)
Definition insertLocal (collectionName : string) (value : Slice)
    (options : OperationOptions) (w : W) : Outcome OperationResult * W :=
  let cid := getCollectionId collectionName in
  if cid =? 0
  then (Returned (OperationResult_error TRI_ERROR_ARANGO_COLLECTION_NOT_FOUND), w)
  else
    let '(tick, w) := TRI_NewTickServer w in
    match value with
    | VObject fields =>
      match insertLocal_merge cid tick value with
      | Refuse c => (Returned (OperationResult_error c), w)
      | Merge merge =>
        let toInsert := VPackCollection_merge fields merge in
        insertLocal_store cid collectionName (VObject toInsert) options w
      end
    | _ => (Thrown VPackException, w)
    end.

(** [OperationResult Transaction::insert(collectionName, value, options)] *)
Definition insert (collectionName : string) (value : Slice)
    (options : OperationOptions) (w : W) : Outcome OperationResult * W :=
  if assertions && negb (isRunning w) then (Thrown FailedAssertion, w)
  else if negb (isObject value) && negb (isArray value)
  then (Thrown (ArangoException TRI_ERROR_ARANGO_DOCUMENT_TYPE_INVALID), w)
  else if isArray value
  then (Thrown (ArangoException TRI_ERROR_NOT_IMPLEMENTED), w)
  else if isCoordinator
  then (Thrown (ArangoException TRI_ERROR_NOT_IMPLEMENTED), w)
  else insertLocal collectionName value options w.

(** [removeLocal], from [VPackBuilder builder;] to the end of the
    extraction: the attributes put into [builder] and
    [expectedRevision].  Nothing is ever assigned to [key]. *)
Inductive Extracted_remove : Type :=
  | Remove (builder : gmap string Slice) (expectedRevision : Z)
  | Reject_remove (code : Z)
  | Raise_remove (e : Raised).

Definition removeLocal_extract (value : Slice) : Extracted_remove :=
  let builder : gmap string Slice := ∅ in
  if isObject value then
    let k := get value TRI_VOC_ATTRIBUTE_KEY in
    if negb (isString k)
    then Reject_remove TRI_ERROR_ARANGO_DOCUMENT_KEY_BAD
    else
      let builder := <[TRI_VOC_ATTRIBUTE_KEY := k]> builder in
      let r := get value TRI_VOC_ATTRIBUTE_REV in
      match extract_rev r with
      | Returned expectedRevision => Remove builder expectedRevision
      | Thrown e => Raise_remove e
      end
  else if isString value
  then Remove (<[TRI_VOC_ATTRIBUTE_KEY := value]> builder) 0
  else Remove builder 0.

(** [TRI_doc_update_policy_t updatePolicy(expectedRevision == 0 ?
    TRI_DOC_UPDATE_LAST_WRITE : TRI_DOC_UPDATE_ERROR, expectedRevision,
    &actualRevision);] *)
Definition removeLocal_policy (expectedRevision : Z)
    : TRI_doc_update_policy_t :=
  mkPolicy (if expectedRevision =? 0 then TRI_DOC_UPDATE_LAST_WRITE
            else TRI_DOC_UPDATE_ERROR) expectedRevision.

(** [OperationResult Transaction::removeLocal(collectionName, value,
    options)] *)
Definition removeLocal (collectionName : string) (value : Slice)
    (options : OperationOptions) (w : W) : Outcome OperationResult * W :=
  let cid := getCollectionId collectionName in
  if cid =? 0
  then (Returned (OperationResult_error TRI_ERROR_ARANGO_COLLECTION_NOT_FOUND), w)
  else
    let key : string := "" in
    match removeLocal_extract value with
    | Reject_remove c => (Returned (OperationResult_error c), w)
    | Raise_remove e => (Thrown e, w)
    | Remove builder expectedRevision =>
      let builder :=
        <[TRI_VOC_ATTRIBUTE_REV := VString (to_string expectedRevision)]>
          builder in
      let removeSlice := VObject builder in
      let updatePolicy := removeLocal_policy expectedRevision in
      let '(res, actualRevision, w) :=
        document_remove cid removeSlice updatePolicy
          (negb (isLocked cid TRI_TRANSACTION_WRITE w))
          (waitForSync options) w in
      if negb (res =? TRI_ERROR_NO_ERROR)
      then (Returned (OperationResult_error res), w)
      else
        (Returned (OperationResult_ok (VObject
           (<[TRI_VOC_ATTRIBUTE_KEY := VString key]>
            (<[TRI_VOC_ATTRIBUTE_REV := VString (to_string actualRevision)]>
             (<[TRI_VOC_ATTRIBUTE_ID :=
                VString (collectionName +:+ "/" +:+ key)]> ∅))))), w)
    end.

(** [OperationResult Transaction::remove(collectionName, value, options)] *)
Definition remove (collectionName : string) (value : Slice)
    (options : OperationOptions) (w : W) : Outcome OperationResult * W :=
  if assertions && negb (isRunning w) then (Thrown FailedAssertion, w)
  else if negb (isObject value) && negb (isArray value) && negb (isString value)
  then (Thrown (ArangoException TRI_ERROR_ARANGO_DOCUMENT_TYPE_INVALID), w)
  else if isArray value
  then (Thrown (ArangoException TRI_ERROR_NOT_IMPLEMENTED), w)
  else if isCoordinator
  then (Thrown (ArangoException TRI_ERROR_NOT_IMPLEMENTED), w)
  else removeLocal collectionName value options w.

(** [documentCoordinator], [insertCoordinator], [removeCoordinator],
    [updateCoordinator] and [updateLocal] all consist of
    [THROW_ARANGO_EXCEPTION(TRI_ERROR_NOT_IMPLEMENTED);]. *)
Definition documentCoordinator (collectionName : string) (value : Slice)
    (options : OperationOptions) (w : W) : Outcome OperationResult * W :=
  (Thrown (ArangoException TRI_ERROR_NOT_IMPLEMENTED), w).

Definition insertCoordinator (collectionName : string) (value : Slice)
    (options : OperationOptions) (w : W) : Outcome OperationResult * W :=
  (Thrown (ArangoException TRI_ERROR_NOT_IMPLEMENTED), w).

Definition removeCoordinator (collectionName : string) (value : Slice)
    (options : OperationOptions) (w : W) : Outcome OperationResult * W :=
  (Thrown (ArangoException TRI_ERROR_NOT_IMPLEMENTED), w).

Definition updateCoordinator (collectionName : string)
    (oldValue newValue : Slice) (options : OperationOptions) (w : W)
    : Outcome OperationResult * W :=
  (Thrown (ArangoException TRI_ERROR_NOT_IMPLEMENTED), w).

Definition updateLocal (collectionName : string)
    (oldValue newValue : Slice) (options : OperationOptions) (w : W)
    : Outcome OperationResult * W :=
  (Thrown (ArangoException TRI_ERROR_NOT_IMPLEMENTED), w).

(** [OperationResult Transaction::replace(collectionName, oldValue,
    updateValue, options)] *)
Definition replace (collectionName : string) (oldValue updateValue : Slice)
    (options : OperationOptions) (w : W) : Outcome OperationResult * W :=
  (Thrown (ArangoException TRI_ERROR_NOT_IMPLEMENTED), w).

(** [OperationResult Transaction::update(collectionName, oldValue,
    newValue, options)] *)
Definition update (collectionName : string) (oldValue newValue : Slice)
    (options : OperationOptions) (w : W) : Outcome OperationResult * W :=
  if assertions && negb (isRunning w) then (Thrown FailedAssertion, w)
  else if negb (isObject oldValue) && negb (isArray oldValue)
  then (Thrown (ArangoException TRI_ERROR_ARANGO_DOCUMENT_TYPE_INVALID), w)
  else if negb (isObject newValue) && negb (isArray newValue)
  then (Thrown (ArangoException TRI_ERROR_ARANGO_DOCUMENT_TYPE_INVALID), w)
  else if isArray oldValue || isArray newValue
  then (Thrown (ArangoException TRI_ERROR_NOT_IMPLEMENTED), w)
  else if isCoordinator
  then updateCoordinator collectionName oldValue newValue options w
  else updateLocal collectionName oldValue newValue options w.

(** The key under which [insertLocal] stores an object: the caller's, or
    the one generated from the tick. *)
Definition insertLocal_key (cid tick : Z) (fields : gmap string Slice)
    : string :=
  match fields !! "_key" with
  | Some (VString k) => k
  | _ => keyGenerator_generate cid tick
  end.

End Operations.

(** *** A collection in memory, for running the operations

    Modelled from the spec: the collection, its key generator and the tick
    server are collaborators whose code is not part of the sources at hand.
    One collection, ["users"], holds its documents by key; [read] finds a
    document or reports "not found"; [remove] obeys the update policy and
    reports the revision it met; [insert] stores the document under a fresh
    key; ticks count upwards. *)

Record Mem : Type := mkMem {
  store : gmap string TRI_doc_mptr_copy_t;
  tick : Z;
  ditches : bool
}.

Definition digit (a : ascii) : option Z :=
  let n := Z.of_N (N_of_ascii a) in
  if (48 <=? n) && (n <=? 57) then Some (n - 48) else None.

Fixpoint digits (s : string) (acc : Z) : option Z :=
  match s with
  | EmptyString => Some acc
  | String a rest =>
    match digit a with
    | Some d => digits rest (10 * acc + d)
    | None => None
    end
  end.

(** Decimal digits give their number; anything else gives 0. *)
Definition decimal (s : string) : Z :=
  match s with
  | EmptyString => 0
  | _ => match digits s 0 with
         | Some n => if n <? 2 ^ 64 then n else 0
         | None => 0
         end
  end.

Definition mem_read (cid : Z) (key : string) (lock : bool) (w : Mem)
    : Z * TRI_doc_mptr_copy_t * Mem :=
  match store w !! key with
  | Some d => (TRI_ERROR_NO_ERROR, d, w)
  | None => (TRI_ERROR_ARANGO_DOCUMENT_NOT_FOUND, mkMptr 0 VNone, w)
  end.

Definition mem_insert (cid : Z) (slice : Slice) (lock sync : bool) (w : Mem)
    : Z * TRI_doc_mptr_copy_t * Mem :=
  let key := copyString (get slice TRI_VOC_ATTRIBUTE_KEY) in
  match store w !! key with
  | Some d => (TRI_ERROR_ARANGO_CONFLICT, d, w)
  | None =>
    let d := mkMptr (tick w) slice in
    (TRI_ERROR_NO_ERROR, d, mkMem (<[key := d]> (store w)) (tick w) (ditches w))
  end.

Definition mem_remove (cid : Z) (slice : Slice)
    (policy : TRI_doc_update_policy_t) (lock sync : bool) (w : Mem)
    : Z * Z * Mem :=
  let key := copyString (get slice TRI_VOC_ATTRIBUTE_KEY) in
  match store w !! key with
  | None => (TRI_ERROR_ARANGO_DOCUMENT_NOT_FOUND, 0, w)
  | Some d =>
    match _policy policy with
    | TRI_DOC_UPDATE_ERROR =>
      if _expectedRid policy =? _rid d
      then (TRI_ERROR_NO_ERROR, _rid d,
            mkMem (delete key (store w)) (tick w) (ditches w))
      else (TRI_ERROR_ARANGO_CONFLICT, _rid d, w)
    | TRI_DOC_UPDATE_LAST_WRITE =>
      (TRI_ERROR_NO_ERROR, _rid d,
       mkMem (delete key (store w)) (tick w) (ditches w))
    end
  end.

#[global] Instance MemEngine : Collaborators Mem := {|
  getCollectionId name := if String.eqb name "users" then 7 else 0;
  isCoordinator := false;
  assertions := true;
  isRunning _ := true;
  StringUtils_uint64 := decimal;
  orderDitch _ w := (ditches w, w);
  isLocked _ _ _ := false;
  document_read := mem_read;
  document_insert := mem_insert;
  document_remove := mem_remove;
  keyGenerator_generate _ tick := to_string tick;
  keyGenerator_validate _ key _ :=
    if String.eqb key "" then TRI_ERROR_ARANGO_DOCUMENT_KEY_BAD
    else TRI_ERROR_NO_ERROR;
  TRI_NewTickServer w :=
    (tick w + 1, mkMem (store w) (tick w + 1) (ditches w))
|}.

(** The collection after one document, key ["k1"] and revision 5, went in. *)
Definition stored : TRI_doc_mptr_copy_t :=
  mkMptr 5 (VObject (<["_key" := VString "k1"]>
                     (<["_rev" := VString "5"]>
                      (<["name" := VString "Ada"]> ∅)))).
Definition one_document : Mem := mkMem {[ "k1" := stored ]} 5 true.

Definition by_key (key : string) : Slice :=
  VObject {[ "_key" := VString key ]}.

Definition no_options : OperationOptions := mkOptions false.

(** What a successful removal of the document under ["k1"] should report,
    and what the code reports. *)
Definition removed_as_specified : Slice :=
  VObject (<["_key" := VString "k1"]>
           (<["_rev" := VString "5"]>
            (<["_id" := VString "users/k1"]> ∅))).
Definition removed_as_built : Slice :=
  VObject (<["_key" := VString ""]>
           (<["_rev" := VString "5"]>
            (<["_id" := VString "users/"]> ∅))).

(** An object that asks for the document under ["k1"] in revision [rev]. *)
Definition k1_expecting (rev : Slice) : gmap string Slice :=
  <["_key" := VString "k1"]> {[ "_rev" := rev ]}.

(** A caller's object that brings its own [_key], [_rev] and [_id]. *)
Definition bob : gmap string Slice :=
  <["_key" := VString "k2"]>
  (<["_rev" := VInt 99]>
   (<["_id" := VString "elsewhere/1"]>
    (<["name" := VString "Bob"]> ∅))).

End Crud.

(** * Properties *)

(** ** Marker codec: alignment and the payload offset *)

Module DatafileFacts.
Import Datafile.

Lemma pow2_ge_8 (w : Z) : 3 <= w -> 8 <= 2 ^ w.
Proof.
  intros Hw. change 8 with (2 ^ 3). apply Z.pow_le_mono_r; lia.
Qed.

Lemma land_7 (x : Z) : Z.land x 7 = x mod 8.
Proof. change 7 with (Z.ones 3). rewrite Z.land_ones by lia. reflexivity. Qed.

(** The value before the final truncation already fits the type: the
    function rounds the wrapped [value + 7] down to a multiple of 8. *)
Lemma AlignedSize_round_down (w n : Z) :
  3 <= w ->
  AlignedSize w n = 8 * (wrap w (n + 7) / 8).
Proof.
  intros Hw. unfold AlignedSize. set (x := wrap w (n + 7)).
  assert (Hp : 8 <= 2 ^ w) by now apply pow2_ge_8.
  assert (Hx : 0 <= x < 2 ^ w) by (apply Z.mod_pos_bound; lia).
  rewrite land_7. unfold wrap at 1.
  pose proof (Z.mod_pos_bound x 8 ltac:(lia)) as Hm.
  pose proof (Z.div_mod x 8 ltac:(lia)) as Hd.
  rewrite Z.mod_small by lia. lia.
Qed.




Example AlignedSize_13 : AlignedSize 32 13 = 16.
Proof. reflexivity. Qed.

Example AlignedSize_16 : AlignedSize 64 16 = 16.
Proof. reflexivity. Qed.

(** C6: the offset is [sizeof(TRI_df_marker_t) + sizeof(TRI_voc_tid_t)]
    for the two payload-bearing types and for no other; every other type
    reaches [TRI_ASSERT(false)], which aborts when assertions are compiled
    in and otherwise falls through to [return 0]. *)
Theorem VPackOffset_payload_types (assertions : bool) (type : Z) :
  (type = TRI_WAL_MARKER_VPACK_DOCUMENT \/ type = TRI_WAL_MARKER_VPACK_REMOVE ->
   VPackOffset assertions type
   = Value (sizeof_TRI_df_marker_t + sizeof_TRI_voc_tid_t))
  /\ (type <> TRI_WAL_MARKER_VPACK_DOCUMENT ->
      type <> TRI_WAL_MARKER_VPACK_REMOVE ->
      VPackOffset assertions type
      = if assertions then AssertionFailure else Value 0)
  /\ (VPackOffset assertions type
      = Value (sizeof_TRI_df_marker_t + sizeof_TRI_voc_tid_t)
      <-> type = TRI_WAL_MARKER_VPACK_DOCUMENT
          \/ type = TRI_WAL_MARKER_VPACK_REMOVE).
Proof.
  unfold VPackOffset, TRI_ASSERT.
  destruct (Z.eqb_spec type TRI_WAL_MARKER_VPACK_DOCUMENT) as [Hd | Hd];
    destruct (Z.eqb_spec type TRI_WAL_MARKER_VPACK_REMOVE) as [Hr | Hr];
    cbn [orb andb negb];
    (split; [| split; [| split]]); intros; try tauto; try congruence;
    destruct assertions; cbn in *; try tauto; discriminate.
Qed.

Lemma VPackOffset_payload_types_witness :
  VPackOffset true TRI_WAL_MARKER_VPACK_REMOVE = Value 32
  /\ VPackOffset true TRI_DF_MARKER_HEADER = AssertionFailure
  /\ VPackOffset false TRI_DF_MARKER_HEADER = Value 0.
Proof.
  split; [| split].
  - apply (VPackOffset_payload_types true TRI_WAL_MARKER_VPACK_REMOVE).
    right. reflexivity.
  - apply (VPackOffset_payload_types true TRI_DF_MARKER_HEADER); discriminate.
  - apply (VPackOffset_payload_types false TRI_DF_MARKER_HEADER); discriminate.
Defined.

(** Of the marker types of the enumeration, the two payload-bearing ones
    are the only ones with an offset. *)
Lemma VPackOffset_on_enumeration :
  List.filter
    (fun t => match VPackOffset true t with Value _ => true | _ => false end)
    marker_types
  = [TRI_WAL_MARKER_VPACK_DOCUMENT; TRI_WAL_MARKER_VPACK_REMOVE].
Proof. reflexivity. Qed.

End DatafileFacts.

(** ** Transaction state machine *)

Module TxnFacts.
Import Txn.

Section Facts.
Context {Storage : Type} `{LL : LowLevel Storage}.

Lemma differ_in_status_refl (t : Transaction) (w : World Storage) :
  differ_in_status_of t w w.
Proof. split; [reflexivity | intros q; repeat split; reflexivity]. Qed.

Lemma differ_in_status_top_level (t : Transaction) (p : nat)
    (s : TRI_transaction_status_e) (w : World Storage) :
  _trx t = Some p ->
  differ_in_status_of t w (top_level_status t p s w).
Proof.
  intros Hp. unfold top_level_status.
  destruct (Z.eqb_spec (_nestingLevel t) 0) as [Hn | Hn];
    [| apply differ_in_status_refl].
  split; [reflexivity |]. intros q. cbn.
  destruct (decide (p = q)) as [-> | Hne].
  - rewrite fn_lookup_insert. cbn. repeat split. intros [Hq | Hq]; congruence.
  - rewrite fn_lookup_insert_ne by assumption. repeat split.
Qed.

(** What the three functions compute for a transaction that is not real. *)
Lemma begin_nonreal (t : Transaction) (p : nat) (w : World Storage) :
  _isReal t = false -> _trx t = Some p ->
  begin t w =
    if _setupState t =? TRI_ERROR_NO_ERROR
    then (TRI_ERROR_NO_ERROR, top_level_status t p TRI_TRANSACTION_RUNNING w)
    else (_setupState t, w).
Proof.
  intros Hr Hp. unfold begin, top_level_status. rewrite Hp, Hr.
  destruct (_setupState t =? TRI_ERROR_NO_ERROR); [| reflexivity].
  cbn. destruct (_nestingLevel t =? 0); reflexivity.
Qed.

Lemma commit_nonreal (t : Transaction) (p : nat) (w : World Storage) :
  _isReal t = false -> _trx t = Some p ->
  commit t w =
    if bool_decide (_status (handles w p) = TRI_TRANSACTION_RUNNING)
    then (TRI_ERROR_NO_ERROR, top_level_status t p TRI_TRANSACTION_COMMITTED w)
    else (TRI_ERROR_TRANSACTION_INTERNAL, w).
Proof.
  intros Hr Hp. unfold commit, getStatus, top_level_status, St.bind, St.gets.
  rewrite Hp, Hr.
  destruct (bool_decide (_status (handles w p) = TRI_TRANSACTION_RUNNING));
    [| reflexivity].
  cbn. destruct (_nestingLevel t =? 0); reflexivity.
Qed.

Lemma abort_nonreal (t : Transaction) (p : nat) (w : World Storage) :
  _isReal t = false -> _trx t = Some p ->
  abort t w =
    if bool_decide (_status (handles w p) = TRI_TRANSACTION_RUNNING)
    then (TRI_ERROR_NO_ERROR, top_level_status t p TRI_TRANSACTION_ABORTED w)
    else (TRI_ERROR_TRANSACTION_INTERNAL, w).
Proof.
  intros Hr Hp. unfold abort, getStatus, top_level_status, St.bind, St.gets.
  rewrite Hp, Hr.
  destruct (bool_decide (_status (handles w p) = TRI_TRANSACTION_RUNNING));
    [| reflexivity].
  cbn. destruct (_nestingLevel t =? 0); reflexivity.
Qed.

(** The guard of [commit] and [abort], for real transactions as well. *)
Lemma commit_guard (t : Transaction) (w : World Storage) :
  _trx t = None \/ fst (getStatus t w) <> TRI_TRANSACTION_RUNNING ->
  commit t w = (TRI_ERROR_TRANSACTION_INTERNAL, w).
Proof.
  unfold commit, getStatus, St.bind, St.gets. cbn.
  destruct (_trx t) as [p |]; [| reflexivity].
  intros [Hnull | Hst]; [discriminate |].
  rewrite bool_decide_eq_false_2 by assumption. reflexivity.
Qed.

Lemma abort_guard (t : Transaction) (w : World Storage) :
  _trx t = None \/ fst (getStatus t w) <> TRI_TRANSACTION_RUNNING ->
  abort t w = (TRI_ERROR_TRANSACTION_INTERNAL, w).
Proof.
  unfold abort, getStatus, St.bind, St.gets. cbn.
  destruct (_trx t) as [p |]; [| reflexivity].
  intros [Hnull | Hst]; [discriminate |].
  rewrite bool_decide_eq_false_2 by assumption. reflexivity.
Qed.

End Facts.






(** Every status other than [RUNNING] is refused, one by one. *)
Lemma commit_refused_in (s : TRI_transaction_status_e) :
  s <> TRI_TRANSACTION_RUNNING ->
  commit top_level (world_in s) = (TRI_ERROR_TRANSACTION_INTERNAL, world_in s)
  /\ abort top_level (world_in s) = (TRI_ERROR_TRANSACTION_INTERNAL, world_in s).
Proof.
  intros Hs. split; [apply commit_guard | apply abort_guard]; right; exact Hs.
Qed.

(** One level down nothing is recorded, so there a commit can be repeated. *)
Example nested_commit_twice :
  commit nested (snd (commit nested (world_in TRI_TRANSACTION_RUNNING)))
  = (TRI_ERROR_NO_ERROR, world_in TRI_TRANSACTION_RUNNING).
Proof. reflexivity. Qed.

End TxnFacts.

(** ** Bulk scan helpers: locks *)

Module ScanFacts.
Import Scan.

(** C1 fails on the code: when [orderDitch] returns [nullptr] after the
    read lock was granted, each of the four helpers returns
    [TRI_ERROR_OUT_OF_MEMORY] at once and the lock it took is still held. *)
Theorem ditch_failure_keeps_read_lock
    (lookupRandom :
       PrimaryIndex -> RandomCursor -> option TRI_doc_mptr_copy_t * RandomCursor)
    (memory : nat) (assertions : bool) (idx : PrimaryIndex)
    (internalSkip : BucketPosition) (batchSize skip limit : Z) (l : positive)
    (c : RandomCursor) (ids : list string) (s : Scan) :
  let env := no_ditch memory assertions in
  readIncremental env idx internalSkip batchSize skip limit s
  = (Return TRI_ERROR_OUT_OF_MEMORY, internalSkip, skip, locked s)
  /\ any lookupRandom env idx batchSize c s
     = (Return TRI_ERROR_OUT_OF_MEMORY, c, locked s)
  /\ all env idx ids true s = (Return TRI_ERROR_OUT_OF_MEMORY, ids, locked s)
  /\ readSlice env idx skip (Z.pos l) s
     = (Return TRI_ERROR_OUT_OF_MEMORY, locked s)
  /\ held (locked s) = held s + 1.
Proof. cbn zeta. repeat split. Qed.

(** The same at a concrete call: a caller that holds no lock holds one
    after [readIncremental] has failed to order a ditch. *)
Example readIncremental_leaks_lock :
  readIncremental (no_ditch 1000 true) five 0 10 0 10 idle
  = (Return TRI_ERROR_OUT_OF_MEMORY, 0%nat, 0, mkScan [] 0 1).
Proof. reflexivity. Qed.

(** Only [readIncremental] catches what the collecting step throws; it
    gives the lock back and reports "out of memory". *)
Example readIncremental_catches :
  readIncremental (mkEnv TRI_ERROR_NO_ERROR true 2 true) five 0 2 0 10
    (mkScan [docE] 0 0)
  = (Return TRI_ERROR_OUT_OF_MEMORY, 2%nat, 0, mkScan [docE; docA] 5 0).
Proof. reflexivity. Qed.

(** [all] and [readSlice] have no handler: the exception leaves them with
    the lock held. *)
Example all_throws_with_lock :
  all (mkEnv TRI_ERROR_NO_ERROR true 2 true) five [] true idle
  = (Throw, ["A"; "B"]%string, mkScan [] 0 1).
Proof. reflexivity. Qed.

Example readSlice_throws_with_lock :
  readSlice (mkEnv TRI_ERROR_NO_ERROR true 2 true) five 0 10 idle
  = (Throw, mkScan [docA; docB] 5 1).
Proof. reflexivity. Qed.

(** With a ditch and enough memory the lock is given back. *)
Example readIncremental_releases :
  readIncremental calm five 0 2 1 10 idle
  = (Return TRI_ERROR_NO_ERROR, 3%nat, 0, mkScan [docB; docC] 5 0).
Proof. reflexivity. Qed.

(** The loop of [readIncremental] never touches the lock, and a budget of
    one more than the documents left in the index is never used up. *)
Lemma readIncremental_loop_held (fuel : nat) (env : Env) (idx : PrimaryIndex)
    (batchSize limit count : Z) (internalSkip : BucketPosition) (skip : Z)
    (s : Scan) :
  held (readIncremental_loop fuel env idx batchSize limit count
          internalSkip skip s).2 = held s.
Proof.
  revert count internalSkip skip s.
  induction fuel as [| fuel IH]; intros count internalSkip skip s;
    [reflexivity |].
  cbn [readIncremental_loop].
  destruct ((count <? batchSize) || (0 <? skip)); [| reflexivity].
  unfold lookupSequential.
  destruct (idx !! internalSkip) as [d |]; [| reflexivity].
  destruct (0 <? skip); [rewrite IH; reflexivity |].
  unfold emplace_back. cbn [docs total held].
  destruct (decide _); [| reflexivity].
  destruct (limit <=? u64 (count + 1)); [reflexivity |].
  rewrite IH. reflexivity.
Qed.

Lemma readIncremental_loop_fuel (fuel : nat) (env : Env) (idx : PrimaryIndex)
    (batchSize limit count : Z) (internalSkip : BucketPosition) (skip : Z)
    (s : Scan) :
  (length idx - internalSkip < fuel)%nat ->
  (readIncremental_loop fuel env idx batchSize limit count
     internalSkip skip s).1.1.1 <> OutOfFuel.
Proof.
  revert count internalSkip skip s.
  induction fuel as [| fuel IH]; intros count internalSkip skip s Hf;
    [lia |].
  cbn [readIncremental_loop].
  destruct ((count <? batchSize) || (0 <? skip)); [| discriminate].
  unfold lookupSequential.
  destruct (idx !! internalSkip) as [d |] eqn:Hd; [| discriminate].
  apply lookup_lt_Some in Hd.
  destruct (0 <? skip); [apply IH; lia |].
  unfold emplace_back. cbn [docs total held].
  destruct (decide _); [| discriminate].
  destruct (limit <=? u64 (count + 1)); [discriminate |].
  apply IH. lia.
Qed.

(** Past the ditch, [readIncremental] gives its lock back on both ways out:
    the regular one and the handler of the collecting step. *)
Lemma readIncremental_gives_lock_back (env : Env) (idx : PrimaryIndex)
    (internalSkip : BucketPosition) (batchSize skip limit : Z) (s : Scan) :
  lock_result env = TRI_ERROR_NO_ERROR -> ditch_ordered env = true ->
  exists code internalSkip' skip' s',
    readIncremental env idx internalSkip batchSize skip limit s
    = (Return code, internalSkip', skip', s')
    /\ (code = TRI_ERROR_NO_ERROR \/ code = TRI_ERROR_OUT_OF_MEMORY)
    /\ held s' = held s.
Proof.
  intros Hl Hd. unfold readIncremental, lock, orderDitch_failed.
  rewrite Hl, Hd. cbn [Z.eqb negb TRI_ERROR_NO_ERROR].
  set (reserved := if 2048 <? batchSize then _ else _).
  destruct reserved.
  - pose proof (readIncremental_loop_held (S (length idx)) env idx batchSize
                  limit 0 internalSkip skip (locked s)) as Hh.
    pose proof (readIncremental_loop_fuel (S (length idx)) env idx batchSize
                  limit 0 internalSkip skip (locked s) ltac:(lia)) as Hf.
    fold (locked s).
    destruct (readIncremental_loop _ _ _ _ _ _ _ _ _) as [[[l p] k] s'].
    cbn in Hh, Hf.
    destruct l; [| | contradiction]; do 4 eexists;
      (split; [reflexivity |]); (split; [auto |]); cbn; lia.
  - do 4 eexists. split; [reflexivity |]. split; [auto |]. cbn. lia.
Qed.

(** ** Bulk scan helpers: the loops end

    Every lookup that finds a document moves the cursor on, so a budget of
    one more than the number of documents is never used up. *)

Lemma readSlice_skip_back_fuel (idx : PrimaryIndex) :
  forall (fuel : nat) (position : BucketPosition) (skip : Z),
    (length idx - position < fuel)%nat ->
    readSlice_skip_back fuel idx position skip <> None.
Proof.
  induction fuel as [| fuel IH]; intros position skip Hf; [lia |].
  cbn [readSlice_skip_back]. unfold lookupSequentialReverse.
  destruct (reverse idx !! position) as [d |] eqn:Hd.
  - apply lookup_lt_Some in Hd. rewrite length_reverse in Hd.
    destruct ((skip + 1 <? 0) && _); [apply IH; lia | discriminate].
  - rewrite bool_decide_eq_false_2 by (intros [? ?]; discriminate).
    rewrite andb_false_r. discriminate.
Qed.

Lemma readSlice_collect_back_fuel (env : Env) (idx : PrimaryIndex) (limit : Z) :
  forall (fuel : nat) (position : BucketPosition) (count : Z) (s : Scan),
    (length idx - position < fuel)%nat ->
    (readSlice_collect_back fuel env idx limit position count s).1
    <> OutOfFuel.
Proof.
  induction fuel as [| fuel IH]; intros position count s Hf; [lia |].
  cbn [readSlice_collect_back]. unfold lookupSequentialReverse.
  destruct (reverse idx !! position) as [d |] eqn:Hd; [| discriminate].
  apply lookup_lt_Some in Hd. rewrite length_reverse in Hd.
  destruct (emplace_back env (docs s) d); [| discriminate].
  destruct (u64 (count + 1) <? limit); [apply IH; lia | discriminate].
Qed.

Lemma readSlice_skip_fuel (idx : PrimaryIndex) :
  forall (fuel : nat) (position : BucketPosition) (skip total : Z),
    (length idx - position < fuel)%nat ->
    readSlice_skip fuel idx position skip total <> SkipOutOfFuel.
Proof.
  induction fuel as [| fuel IH]; intros position skip total Hf; [lia |].
  cbn [readSlice_skip]. destruct (0 <? skip); [| discriminate].
  unfold lookupSequential.
  destruct (idx !! position) as [d |] eqn:Hd; [| discriminate].
  apply lookup_lt_Some in Hd. apply IH. lia.
Qed.

Lemma readSlice_collect_fuel (env : Env) (idx : PrimaryIndex) (limit : Z) :
  forall (fuel : nat) (position : BucketPosition) (count : Z) (s : Scan),
    (length idx - position < fuel)%nat ->
    (readSlice_collect fuel env idx limit position count s).1 <> OutOfFuel.
Proof.
  induction fuel as [| fuel IH]; intros position count s Hf; [lia |].
  cbn [readSlice_collect]. unfold lookupSequential.
  destruct (idx !! position) as [d |] eqn:Hd; [| discriminate].
  apply lookup_lt_Some in Hd. cbn [docs total held].
  destruct (emplace_back env (docs s) d); [| discriminate].
  destruct (u64 (count + 1) <? limit); [apply IH; lia | discriminate].
Qed.

Lemma readSlice_finish_fuel (r : Loop * Scan) :
  r.1 <> OutOfFuel -> (readSlice_finish r).1 <> Exhausted.
Proof. destruct r as [[| |] s]; cbn; intros H; congruence. Qed.

(** [readSlice] always comes to an end: it returns or lets an exception
    through. *)
Lemma readSlice_ends (env : Env) (idx : PrimaryIndex) (skip limit : Z)
    (s : Scan) :
  (readSlice env idx skip limit s).1 <> Exhausted.
Proof.
  unfold readSlice.
  destruct (limit =? 0); [discriminate |].
  destruct (lock env s) as [res s1].
  destruct (negb (res =? TRI_ERROR_NO_ERROR)); [discriminate |].
  destruct (orderDitch_failed env); [discriminate |].
  destruct (skip <? 0).
  - pose proof (readSlice_skip_back_fuel idx (S (length idx)) 0 skip
                  ltac:(lia)) as Hs.
    destruct (readSlice_skip_back _ _ _ _) as [[[[d |] p] k] |];
      [| discriminate | contradiction].
    apply readSlice_finish_fuel, readSlice_collect_back_fuel. lia.
  - pose proof (readSlice_skip_fuel idx (S (length idx)) 0 skip (total s1)
                  ltac:(lia)) as Hs.
    destruct (readSlice_skip _ _ _ _ _) as [p t | t |];
      [| discriminate | contradiction].
    apply readSlice_finish_fuel, readSlice_collect_fuel. lia.
Qed.

(** ** Bulk scan helpers: [readSlice] with a negative [skip] *)

Lemma lookupSequentialReverse_Some (idx : PrimaryIndex)
    (position : BucketPosition) (d : TRI_doc_mptr_copy_t) :
  reverse idx !! position = Some d ->
  lookupSequentialReverse idx position = (Some d, S position).
Proof. intros H. unfold lookupSequentialReverse. rewrite H. reflexivity. Qed.

Lemma lookupSequentialReverse_None (idx : PrimaryIndex)
    (position : BucketPosition) :
  (length idx <= position)%nat ->
  lookupSequentialReverse idx position = (None, position).
Proof.
  intros H. unfold lookupSequentialReverse.
  rewrite lookup_ge_None_2; [reflexivity |]. rewrite length_reverse. exact H.
Qed.

(** The first loop hands out [n] documents from the end when there are that
    many: it stops on the [n]-th from the end with the cursor behind it. *)
Lemma readSlice_skip_back_enough (n : nat) (idx : PrimaryIndex) :
  forall (fuel : nat) (position : BucketPosition),
    (1 <= n)%nat -> (n <= fuel)%nat -> (position + n <= length idx)%nat ->
    readSlice_skip_back fuel idx position (- Z.of_nat n)
    = Some (reverse idx !! (position + n - 1)%nat, (position + n)%nat, 0).
Proof.
  induction n as [| n IH]; intros fuel position Hn Hf Hlen; [lia |].
  destruct fuel as [| fuel]; [lia |].
  cbn [readSlice_skip_back].
  destruct (lookup_lt_is_Some_2 (reverse idx) position) as [d Hd];
    [rewrite length_reverse; lia |].
  rewrite (lookupSequentialReverse_Some _ _ _ Hd).
  destruct n as [| n].
  - cbn. replace (position + 1 - 1)%nat with position by lia.
    rewrite Hd. replace (position + 1)%nat with (S position) by lia.
    reflexivity.
  - replace (- Z.of_nat (S (S n)) + 1) with (- Z.of_nat (S n)) by lia.
    replace (- Z.of_nat (S n) <? 0) with true by (symmetry; apply Z.ltb_lt; lia).
    rewrite bool_decide_eq_true_2 by eauto. cbn [andb].
    rewrite IH by lia.
    replace (S position + S n - 1)%nat with (position + S (S n) - 1)%nat by lia.
    replace (S position + S n)%nat with (position + S (S n))%nat by lia.
    reflexivity.
Qed.

(** When there are fewer than [n] documents it runs off the beginning. *)
Lemma readSlice_skip_back_short (idx : PrimaryIndex) :
  forall (fuel n : nat) (position : BucketPosition),
    (1 <= n)%nat -> (length idx - position < fuel)%nat ->
    (length idx < position + n)%nat ->
    exists position' skip',
      readSlice_skip_back fuel idx position (- Z.of_nat n)
      = Some (None, position', skip').
Proof.
  induction fuel as [| fuel IH]; intros n position Hn Hf Hlen; [lia |].
  cbn [readSlice_skip_back].
  destruct (decide (length idx <= position)%nat) as [Hend | Hin].
  - rewrite lookupSequentialReverse_None by assumption.
    rewrite bool_decide_eq_false_2 by (intros [? ?]; discriminate).
    rewrite andb_false_r. eauto.
  - destruct (lookup_lt_is_Some_2 (reverse idx) position) as [d Hd];
      [rewrite length_reverse; lia |].
    rewrite (lookupSequentialReverse_Some _ _ _ Hd).
    destruct n as [| [| n]]; [lia | lia |].
    replace (- Z.of_nat (S (S n)) + 1) with (- Z.of_nat (S n)) by lia.
    replace (- Z.of_nat (S n) <? 0) with true by (symmetry; apply Z.ltb_lt; lia).
    rewrite bool_decide_eq_true_2 by eauto. cbn [andb].
    apply IH; lia.
Qed.

(** The second loop goes on towards the beginning and collects up to
    [limit - count] documents. *)
Lemma readSlice_collect_back_spec (env : Env) (idx : PrimaryIndex) (limit : Z) :
  forall (fuel : nat) (position : BucketPosition) (count : Z) (s : Scan),
    0 <= count < limit -> limit < 2 ^ 64 ->
    (length idx - position < fuel)%nat ->
    (length (docs s) + (length idx - position) <= memory env)%nat ->
    readSlice_collect_back fuel env idx limit position count s
    = (Finished,
       mkScan (docs s ++ take (Z.to_nat (limit - count))
                           (drop position (reverse idx)))
              (total s) (held s)).
Proof.
  induction fuel as [| fuel IH]; intros position count s Hc Hl Hf Hm; [lia |].
  cbn [readSlice_collect_back].
  destruct (decide (length idx <= position)%nat) as [Hend | Hin].
  - rewrite lookupSequentialReverse_None by assumption.
    rewrite drop_ge by (rewrite length_reverse; lia).
    rewrite take_nil, app_nil_r. destruct s; reflexivity.
  - destruct (lookup_lt_is_Some_2 (reverse idx) position) as [d Hd];
      [rewrite length_reverse; lia |].
    rewrite (lookupSequentialReverse_Some _ _ _ Hd).
    unfold emplace_back. rewrite decide_True by lia.
    assert (Hu : u64 (count + 1) = count + 1).
    { unfold u64. apply Z.mod_small. lia. }
    rewrite Hu. rewrite (drop_S _ _ _ Hd).
    replace (Z.to_nat (limit - count))
      with (S (Z.to_nat (limit - (count + 1)))) by lia.
    cbn [take docs total held].
    destruct (Z.ltb_spec (count + 1) limit) as [Hlt | Hge].
    + rewrite IH; cbn [docs total held];
        [| lia | lia | lia | rewrite length_app; cbn; lia].
      rewrite <- app_assoc. reflexivity.
    + replace (limit - (count + 1)) with 0 by lia.
      cbn. rewrite take_0. reflexivity.
Qed.

(** C3, as the code has it: with a negative [skip], [readSlice] walks
    backward from the end of the index, passes over [|skip|] documents and
    keeps walking backward, collecting up to [limit] documents; the lock is
    given back.  So the result is the index reversed, without its first
    [|skip|] documents, cut to [limit]. *)
Theorem readSlice_negative_skip (env : Env) (idx : PrimaryIndex)
    (skip limit : Z) (s : Scan) :
  lock_result env = TRI_ERROR_NO_ERROR -> ditch_ordered env = true ->
  (length (docs s) + length idx <= memory env)%nat ->
  skip < 0 -> 0 < limit < 2 ^ 64 ->
  readSlice env idx skip limit s
  = (Return TRI_ERROR_NO_ERROR,
     mkScan (docs s ++ take (Z.to_nat limit)
                         (drop (Z.to_nat (- skip)) (reverse idx)))
            (total s) (held s)).
Proof.
  intros Hl Hd Hm Hs Hlim.
  set (n := Z.to_nat (- skip)).
  assert (Hn : (1 <= n)%nat) by lia.
  replace skip with (- Z.of_nat n) by lia.
  unfold readSlice, lock, orderDitch_failed. rewrite Hl, Hd.
  replace (limit =? 0) with false by (symmetry; apply Z.eqb_neq; lia).
  replace (- Z.of_nat n <? 0) with true by (symmetry; apply Z.ltb_lt; lia).
  cbn [Z.eqb negb TRI_ERROR_NO_ERROR]. fold (locked s).
  assert (Hback : unlock (locked s) = s).
  { destruct s as [ds t h]. unfold unlock, locked; cbn. f_equal. lia. }
  destruct (decide (n <= length idx)%nat) as [Hin | Hout].
  - rewrite (readSlice_skip_back_enough n idx (S (length idx)) 0)
      by (cbn; lia).
    destruct (lookup_lt_is_Some_2 (reverse idx) (0 + n - 1)) as [d Hd'];
      [rewrite length_reverse; lia |].
    rewrite Hd'.
    rewrite (readSlice_collect_back_spec env idx limit)
      by (cbn [docs locked]; lia).
    cbn [readSlice_finish]. unfold unlock, locked. cbn [docs total held].
    replace (limit - 0) with limit by lia.
    replace (held s + 1 - 1) with (held s) by lia. reflexivity.
  - destruct (readSlice_skip_back_short idx (S (length idx)) n 0)
      as (p' & k' & Hshort); [lia | lia | lia |].
    rewrite Hshort, Hback.
    rewrite drop_ge by (rewrite length_reverse; lia).
    rewrite take_nil, app_nil_r. destruct s; reflexivity.
Qed.

Lemma readSlice_negative_skip_witness :
  readSlice calm five (-2) 1 idle
  = (Return TRI_ERROR_NO_ERROR, mkScan [docC] 0 0).
Proof.
  apply (readSlice_negative_skip calm five (-2) 1 idle);
    [reflexivity | reflexivity | cbn; lia | lia | lia].
Defined.

(** C3, as it is stated, fails on five documents [A] to [E]:
    [readSlice(skip = -2, limit = 1)] returns exactly one document, and it
    is [C], the third, not [D]. *)
Lemma readSlice_returns_third_not_fourth :
  readSlice calm five (-2) 1 idle
  = (Return TRI_ERROR_NO_ERROR, mkScan [docC] 0 0)
  /\ five !! 2%nat = Some docC
  /\ five !! 3%nat = Some docD
  /\ docs (readSlice calm five (-2) 1 idle).2 <> [docD].
Proof.
  split; [reflexivity |]. split; [reflexivity |]. split; [reflexivity |].
  vm_compute. intros H. discriminate H.
Qed.

(** With room for five, the three documents before the last two come out,
    last first. *)
Example readSlice_minus_2_limit_5 :
  docs (readSlice calm five (-2) 5 idle).2 = [docC; docB; docA].
Proof. reflexivity. Qed.

(** A positive [skip] passes over that many documents from the beginning. *)
Example readSlice_plus_2_limit_2 :
  readSlice calm five 2 2 idle
  = (Return TRI_ERROR_NO_ERROR, mkScan [docC; docD] 5 0).
Proof. reflexivity. Qed.

End ScanFacts.

(** ** Document operations *)

Module CrudFacts.
Import Crud.

(** C2 fails on the code: [removeLocal] never assigns its local [key], so
    a successful removal, by string or by object, reports the revision that
    was removed but an empty [_key] and an [_id] that ends after the
    slash. *)
Theorem removeLocal_reports_empty_key :
  removeLocal "users" (VString "k1") no_options one_document
  = (Returned (OperationResult_ok removed_as_built), mkMem ∅ 5 true)
  /\ removeLocal "users" (by_key "k1") no_options one_document
     = (Returned (OperationResult_ok removed_as_built), mkMem ∅ 5 true)
  /\ removed_as_built <> removed_as_specified
  /\ get removed_as_built "_key" = VString ""
  /\ get removed_as_built "_id" = VString "users/"
  /\ get removed_as_built "_rev" = VString (to_string (_rid stored)).
Proof.
  split; [reflexivity |]. split; [reflexivity |].
  split; [| repeat split].
  intros H. apply (f_equal (fun v => get v "_key")) in H.
  vm_compute in H. discriminate H.
Qed.

Section Facts.
Context {W : Type} `{C : Collaborators W}.

Lemma removeLocal_extract_reject (value : Slice) (c : Z) :
  removeLocal_extract value = Reject_remove c ->
  c = TRI_ERROR_ARANGO_DOCUMENT_KEY_BAD.
Proof.
  unfold removeLocal_extract.
  destruct (isObject value).
  - destruct (isString (get value TRI_VOC_ATTRIBUTE_KEY)); cbn [negb].
    + destruct (extract_rev _); discriminate.
    + intros [= <-]. reflexivity.
  - destruct (isString value); discriminate.
Qed.

(** The same for every collection behind the interface: whatever was
    removed, the result carries the revision handed back by the physical
    delete, the empty string as [_key] and the collection name with a slash
    as [_id]. *)
Lemma removeLocal_result_shape (collectionName : string) (value : Slice)
    (options : OperationOptions) (w w' : W) (r : OperationResult) :
  removeLocal collectionName value options w = (Returned r, w') ->
  code r = TRI_ERROR_NO_ERROR ->
  exists actualRevision : Z,
    buffer r =
      Some (VObject
              (<["_key" := VString ""]>
               (<["_rev" := VString (to_string actualRevision)]>
                (<["_id" := VString (collectionName +:+ "/")]> ∅)))).
Proof.
  unfold removeLocal.
  destruct (getCollectionId collectionName =? 0).
  { intros [= <- <-]. discriminate. }
  destruct (removeLocal_extract value) as [b e | c | e] eqn:He.
  - destruct (document_remove _ _ _ _ _ _) as [[res actual] w2].
    destruct (Z.eqb_spec res TRI_ERROR_NO_ERROR) as [-> | Hres]; cbn [negb].
    + intros [= <- <-] _. exists actual. reflexivity.
    + intros [= <- <-] Hc. cbn in Hc. contradiction.
  - apply removeLocal_extract_reject in He. subst c.
    intros [= <- <-]. discriminate.
  - discriminate.
Qed.

Lemma get_object (fields : gmap string Slice) (k : string) (v : Slice) :
  fields !! k = Some v -> get (VObject fields) k = v.
Proof. intros H. cbn. rewrite H. reflexivity. Qed.







Lemma storeNumber_bytes (value : Z) (n : nat) :
  Forall (fun b => 0 <= b < 256) (storeNumber value n).
Proof.
  revert value. induction n as [| n IH]; intros value; cbn;
    constructor; [| apply IH].
  change 255 with (Z.ones 8). rewrite Z.land_ones by lia.
  apply Z.mod_pos_bound. lia.
Qed.

Lemma readNumber_storeNumber (value : Z) (n : nat) :
  readNumber (storeNumber value n) = value mod 256 ^ Z.of_nat n.
Proof.
  revert value. induction n as [| n IH]; intros value.
  - cbn. rewrite Z.mod_1_r. reflexivity.
  - cbn [storeNumber readNumber]. rewrite IH.
    change 255 with (Z.ones 8). rewrite Z.land_ones by lia.
    rewrite Z.shiftr_div_pow2 by lia.
    rewrite Nat2Z.inj_succ, Z.pow_succ_r by lia.
    change (2 ^ 8) with 256.
    rewrite Z.rem_mul_r by lia. reflexivity.
Qed.


End Facts.

(** *** The operations on the collection in memory *)




(** With a revision that is not 0 the removal runs under the [ERROR]
    policy: a wrong one is a conflict and the document stays. *)
Example removeLocal_wrong_revision :
  removeLocal "users" (VObject (k1_expecting (VString "6"))) no_options
    one_document
  = (Returned (OperationResult_error TRI_ERROR_ARANGO_CONFLICT), one_document).
Proof. reflexivity. Qed.


(** The same insert, run: what the collection holds afterwards under
    ["k2"] and what the caller gets back. *)
Example insertLocal_bob :
  let '(r, w) := insertLocal "users" (VObject bob) no_options one_document in
  r = Returned (OperationResult_ok (VObject
        (<["_key" := VString "k2"]>
         (<["_rev" := VString "6"]>
          (<["_id" := VString "users/k2"]> ∅)))))
  /\ (vpack <$> store w !! "k2")
     = Some (VObject
               (<["_key" := VString "k2"]>
                (<["_rev" := VString "6"]>
                 (<["_id" := VCustom [243; 7; 0; 0; 0; 0; 0; 0; 0]]>
                  (<["name" := VString "Bob"]> ∅))))).
Proof. vm_compute. split; reflexivity. Qed.

(** Without a [_key] the generator makes one from the tick. *)
Example insertLocal_generated_key :
  (insertLocal "users" (VObject {[ "name" := VString "Eve" ]}) no_options
     one_document).1
  = Returned (OperationResult_ok (VObject
      (<["_key" := VString "6"]>
       (<["_rev" := VString "6"]>
        (<["_id" := VString "users/6"]> ∅))))).
Proof. vm_compute. reflexivity. Qed.

End CrudFacts.

(** * Further properties of the code *)

(** ** Alignment *)

Module DatafileMore.
Import Datafile DatafileFacts.

Lemma pow2_multiple_of_8 (w : Z) : 3 <= w -> 2 ^ w = 8 * 2 ^ (w - 3).
Proof.
  intros Hw. change 8 with (2 ^ 3). rewrite <- Z.pow_add_r by lia.
  f_equal. lia.
Qed.

(** The two regimes of [AlignedSize]: rounding up while [n + 7] fits the
    type, and 0 for the seven values above. *)
Lemma AlignedSize_cases (w n : Z) :
  3 <= w -> 0 <= n < 2 ^ w ->
  (n <= 2 ^ w - 8 /\ AlignedSize w n = 8 * ((n + 7) / 8))
  \/ (2 ^ w - 8 < n /\ AlignedSize w n = 0).
Proof.
  intros Hw Hn. rewrite AlignedSize_round_down by assumption.
  pose proof (pow2_ge_8 w Hw) as Hp. unfold wrap.
  destruct (Z_lt_le_dec (n + 7) (2 ^ w)) as [Hfit | Hover].
  - left. rewrite Z.mod_small by lia. lia.
  - right. split; [lia |].
    replace ((n + 7) mod 2 ^ w) with (n + 7 - 2 ^ w)
      by (apply (Z.mod_unique (n + 7) (2 ^ w) 1); lia).
    rewrite Z.div_small by lia. reflexivity.
Qed.

(** Aligning twice is aligning once, in the wrapped regime too. *)
Theorem AlignedSize_idempotent (w n : Z) :
  3 <= w -> 0 <= n < 2 ^ w ->
  AlignedSize w (AlignedSize w n) = AlignedSize w n.
Proof.
  intros Hw Hn.
  pose proof (pow2_ge_8 w Hw) as Hp.
  pose proof (pow2_multiple_of_8 w Hw) as Hk.
  assert (Hq : 0 < 2 ^ (w - 3)) by (apply Z.pow_pos_nonneg; lia).
  destruct (AlignedSize_cases w n Hw Hn) as [[Hfit Hr] | [Hover Hr]];
    rewrite Hr.
  - set (q := (n + 7) / 8).
    assert (Hq1 : 8 * q <= n + 7 < 8 * q + 8).
    { unfold q. pose proof (Z.div_mod (n + 7) 8 ltac:(lia)).
      pose proof (Z.mod_pos_bound (n + 7) 8 ltac:(lia)). lia. }
    assert (Hq2 : 0 <= 8 * q <= 2 ^ w - 8) by nia.
    destruct (AlignedSize_cases w (8 * q) Hw ltac:(lia))
      as [[_ Hr'] | [Hbad _]]; [| lia].
    rewrite Hr'. f_equal. symmetry.
    apply (Z.div_unique (8 * q + 7) 8 q 7); lia.
  - destruct (AlignedSize_cases w 0 Hw ltac:(lia)) as [[_ Hr'] | [Hbad _]];
      [| lia].
    rewrite Hr'. reflexivity.
Qed.

Lemma AlignedSize_idempotent_witness :
  AlignedSize 32 (AlignedSize 32 4294967295) = AlignedSize 32 4294967295.
Proof. apply (AlignedSize_idempotent 32 4294967295); lia. Defined.

(** A size is left as it is exactly when it is a multiple of 8. *)
Theorem AlignedSize_fixed_iff (w n : Z) :
  3 <= w -> 0 <= n < 2 ^ w ->
  (AlignedSize w n = n <-> n mod 8 = 0).
Proof.
  intros Hw Hn.
  pose proof (pow2_ge_8 w Hw) as Hp.
  pose proof (pow2_multiple_of_8 w Hw) as Hk.
  pose proof (Z.div_mod n 8 ltac:(lia)) as Hd.
  pose proof (Z.mod_pos_bound n 8 ltac:(lia)) as Hm.
  destruct (AlignedSize_cases w n Hw Hn) as [[Hfit Hr] | [Hover Hr]];
    rewrite Hr.
  - pose proof (Z.div_mod (n + 7) 8 ltac:(lia)) as Hd7.
    pose proof (Z.mod_pos_bound (n + 7) 8 ltac:(lia)) as Hm7.
    split; intros H.
    + rewrite <- H. rewrite Z.mul_comm. apply Z.mod_mul. lia.
    + assert (Hq : (n + 7) / 8 = n / 8).
      { symmetry. apply (Z.div_unique (n + 7) 8 (n / 8) 7); lia. }
      rewrite Hq. lia.
  - split; intros H; [lia |].
    exfalso. assert (0 < 2 ^ (w - 3)) by (apply Z.pow_pos_nonneg; lia). nia.
Qed.

Lemma AlignedSize_fixed_iff_witness :
  (AlignedSize 32 24 = 24 <-> 24 mod 8 = 0)
  /\ (AlignedSize 32 25 = 25 <-> 25 mod 8 = 0).
Proof.
  split; [apply (AlignedSize_fixed_iff 32 24) | apply (AlignedSize_fixed_iff 32 25)];
    lia.
Defined.



(** [AlignedMarkerSize<T>] computes in [size_t] and casts at the end; for
    the 32-bit [_size] of a marker this gives what [AlignedSize<T>] gives,
    and at a 64-bit [T] it never wraps. *)
Theorem AlignedMarkerSize_agrees (w size : Z) :
  3 <= w <= 64 -> 0 <= size < 2 ^ 32 ->
  AlignedMarkerSize w size = AlignedSize w size
  /\ size <= AlignedMarkerSize 64 size < size + 8
  /\ AlignedMarkerSize 64 size mod 8 = 0.
Proof.
  intros Hw Hs.
  assert (H64 : AlignedSize 64 size = 8 * ((size + 7) / 8)).
  { destruct (AlignedSize_cases 64 size ltac:(lia) ltac:(lia))
      as [[_ Hr] | [Hbad _]]; [exact Hr | lia]. }
  pose proof (Z.div_mod (size + 7) 8 ltac:(lia)) as Hd.
  pose proof (Z.mod_pos_bound (size + 7) 8 ltac:(lia)) as Hm.
  split; [| split].
  - unfold AlignedMarkerSize. rewrite H64.
    rewrite AlignedSize_round_down by lia. unfold wrap.
    pose proof (pow2_ge_8 w ltac:(lia)) as Hp.
    pose proof (pow2_multiple_of_8 w ltac:(lia)) as Hk.
    assert (Hq : 0 < 2 ^ (w - 3)) by (apply Z.pow_pos_nonneg; lia).
    set (x := size + 7) in *. set (K := 2 ^ (w - 3)) in *.
    rewrite Hk in *.
    pose proof (Z.div_mod x (8 * K) ltac:(lia)) as Hx.
    pose proof (Z.mod_pos_bound x (8 * K) ltac:(lia)) as Hxm.
    pose proof (Z.div_mod (x mod (8 * K)) 8 ltac:(lia)) as Hy.
    pose proof (Z.mod_pos_bound (x mod (8 * K)) 8 ltac:(lia)) as Hym.
    assert (Hmod8 : (x mod (8 * K)) mod 8 = x mod 8).
    { apply (Z.mod_unique x 8 (K * (x / (8 * K)) + (x mod (8 * K)) / 8));
        lia. }
    symmetry.
    apply (Z.mod_unique (8 * (x / 8)) (8 * K) (x / (8 * K))); lia.
  - unfold AlignedMarkerSize, wrap. rewrite H64.
    rewrite Z.mod_small by lia. lia.
  - unfold AlignedMarkerSize, wrap. rewrite H64.
    rewrite (Z.mod_small (8 * ((size + 7) / 8)) (2 ^ 64)) by lia.
    rewrite Z.mul_comm. apply Z.mod_mul. lia.
Qed.

Lemma AlignedMarkerSize_agrees_witness :
  AlignedMarkerSize 32 4294967295 = AlignedSize 32 4294967295
  /\ 4294967295 <= AlignedMarkerSize 64 4294967295 < 4294967295 + 8
  /\ AlignedMarkerSize 64 4294967295 mod 8 = 0.
Proof. apply (AlignedMarkerSize_agrees 32 4294967295); lia. Defined.

End DatafileMore.

(** ** The transaction object over several calls *)

Module TxnMore.
Import Txn TxnFacts.

Section Facts.
Context {Storage : Type} `{LL : LowLevel Storage}.

Lemma differ_in_status_trans (t : Transaction) (w1 w2 w3 : World Storage) :
  differ_in_status_of t w1 w2 -> differ_in_status_of t w2 w3 ->
  differ_in_status_of t w1 w3.
Proof.
  intros [Hs1 Hh1] [Hs2 Hh2]. split; [congruence |].
  intros q. destruct (Hh1 q) as (Hi1 & Hc1 & Hf1).
  destruct (Hh2 q) as (Hi2 & Hc2 & Hf2).
  split; [congruence |]. split; [congruence |].
  intros H. rewrite Hf2, Hf1 by assumption. reflexivity.
Qed.

Lemma finish_unfold (t : Transaction) (errorNum : Z) (w : World Storage) :
  finish t errorNum w
  = if errorNum =? TRI_ERROR_NO_ERROR then commit t w
    else (errorNum, snd (abort t w)).
Proof.
  unfold finish. destruct (errorNum =? TRI_ERROR_NO_ERROR); [reflexivity |].
  unfold St.bind, St.ret. destruct (abort t w). reflexivity.
Qed.

(** Without a handle nothing is ever done. *)
Lemma call_without_handle (t : Transaction) (c : Call) (w : World Storage) :
  _trx t = None -> snd (call t c w) = w.
Proof.
  intros Hn. destruct c; cbn [call];
    try rewrite finish_unfold;
    unfold openCollections, begin, commit, abort; rewrite Hn;
    try reflexivity.
  destruct (errorNum =? TRI_ERROR_NO_ERROR); reflexivity.
Qed.

(** One call on a transaction that is not real. *)
Lemma call_nonreal_frame (t : Transaction) (c : Call) (w : World Storage) :
  _isReal t = false -> differ_in_status_of t w (snd (call t c w)).
Proof.
  intros Hr. destruct (_trx t) as [p |] eqn:Hp.
  2:{ rewrite call_without_handle by assumption.
      apply differ_in_status_refl. }
  destruct c; cbn [call]; try rewrite finish_unfold.
  - unfold openCollections. rewrite Hp, Hr.
    destruct (negb _); apply differ_in_status_refl.
  - rewrite (begin_nonreal t p w Hr Hp).
    destruct (_setupState t =? _); cbn [snd];
      [now apply differ_in_status_top_level | apply differ_in_status_refl].
  - rewrite (commit_nonreal t p w Hr Hp).
    destruct (bool_decide _); cbn [snd];
      [now apply differ_in_status_top_level | apply differ_in_status_refl].
  - rewrite (abort_nonreal t p w Hr Hp).
    destruct (bool_decide _); cbn [snd];
      [now apply differ_in_status_top_level | apply differ_in_status_refl].
  - rewrite (commit_nonreal t p w Hr Hp), (abort_nonreal t p w Hr Hp).
    destruct (errorNum =? _), (bool_decide _); cbn [snd];
      try (now apply differ_in_status_top_level);
      apply differ_in_status_refl.
Qed.

Lemma calls_cons (t : Transaction) (c : Call) (cs : list Call)
    (w : World Storage) :
  calls t (c :: cs) w
  = (fst (call t c w) :: fst (calls t cs (snd (call t c w))),
     snd (calls t cs (snd (call t c w)))).
Proof.
  cbn [calls]. unfold St.bind, St.ret.
  destruct (call t c w) as [r w1]. cbn [fst snd].
  destruct (calls t cs w1). reflexivity.
Qed.

End Facts.

(** A handle that is null or a recorded setup error stops [openCollections]
    and [begin] before anything is done, for real transactions too: the
    answer is the transaction-internal error without a handle (even when a
    setup error is recorded as well) and the setup error otherwise, and the
    world is as it was. *)
Theorem setup_failure_short_circuits {Storage : Type}
    `{LL : LowLevel Storage} (t : Transaction) (w : World Storage) :
  _trx t = None \/ _setupState t <> TRI_ERROR_NO_ERROR ->
  let e := if bool_decide (_trx t = None) then TRI_ERROR_TRANSACTION_INTERNAL
           else _setupState t in
  openCollections t w = (e, w) /\ begin t w = (e, w).
Proof.
  intros H. unfold openCollections, begin.
  destruct (_trx t) as [p |]; cbn; [| split; reflexivity].
  destruct H as [H | H]; [discriminate |].
  replace (_setupState t =? TRI_ERROR_NO_ERROR) with false
    by (symmetry; now apply Z.eqb_neq).
  split; reflexivity.
Qed.

(** A real transaction whose setup failed, and one that lost its handle. *)
Lemma setup_failure_short_circuits_witness :
  begin (mkTransaction (Some 0%nat) TRI_ERROR_OUT_OF_MEMORY 0 true 0)
    (world_in TRI_TRANSACTION_CREATED)
  = (TRI_ERROR_OUT_OF_MEMORY, world_in TRI_TRANSACTION_CREATED)
  /\ openCollections (mkTransaction None TRI_ERROR_OUT_OF_MEMORY 0 true 0)
       (world_in TRI_TRANSACTION_CREATED)
     = (TRI_ERROR_TRANSACTION_INTERNAL, world_in TRI_TRANSACTION_CREATED).
Proof.
  split.
  - apply (setup_failure_short_circuits
             (mkTransaction (Some 0%nat) TRI_ERROR_OUT_OF_MEMORY 0 true 0)
             (world_in TRI_TRANSACTION_CREATED)).
    right. discriminate.
  - apply (setup_failure_short_circuits
             (mkTransaction None TRI_ERROR_OUT_OF_MEMORY 0 true 0)
             (world_in TRI_TRANSACTION_CREATED)).
    left. reflexivity.
Defined.

(** [finish] with an error always answers that error, whatever [abort]
    answers, and leaves the world [abort] leaves; with no error it is
    [commit].  On a top-level transaction that is not real and is running,
    [finish(0)] records [COMMITTED] and [finish(e)] records [ABORTED]. *)
Theorem finish_commits_or_aborts {Storage : Type} `{LL : LowLevel Storage}
    (t : Transaction) (errorNum : Z) (w : World Storage) :
  errorNum <> TRI_ERROR_NO_ERROR ->
  finish t errorNum w = (errorNum, snd (abort t w))
  /\ finish t TRI_ERROR_NO_ERROR w = commit t w
  /\ (forall p : nat,
        _isReal t = false -> _nestingLevel t = 0 -> _trx t = Some p ->
        _status (handles w p) = TRI_TRANSACTION_RUNNING ->
        _status (handles (snd (finish t errorNum w)) p)
        = TRI_TRANSACTION_ABORTED
        /\ fst (finish t TRI_ERROR_NO_ERROR w) = TRI_ERROR_NO_ERROR
        /\ _status (handles (snd (finish t TRI_ERROR_NO_ERROR w)) p)
           = TRI_TRANSACTION_COMMITTED).
Proof.
  intros He. rewrite !finish_unfold.
  replace (errorNum =? TRI_ERROR_NO_ERROR) with false
    by (symmetry; now apply Z.eqb_neq).
  cbn [Z.eqb TRI_ERROR_NO_ERROR].
  split; [reflexivity |]. split; [reflexivity |].
  intros p Hr Hn Hp Hst. cbn [snd].
  rewrite (abort_nonreal t p w Hr Hp), (commit_nonreal t p w Hr Hp).
  rewrite bool_decide_eq_true_2 by assumption. cbn [fst snd].
  unfold top_level_status, status_set. rewrite Hn. cbn.
  rewrite !fn_lookup_insert. repeat split.
Qed.

Lemma finish_commits_or_aborts_witness :
  finish top_level TRI_ERROR_ARANGO_CONFLICT (world_in TRI_TRANSACTION_CREATED)
  = (TRI_ERROR_ARANGO_CONFLICT, world_in TRI_TRANSACTION_CREATED)
  /\ _status (handles (snd (finish top_level TRI_ERROR_ARANGO_CONFLICT
                              (world_in TRI_TRANSACTION_RUNNING))) 0)
     = TRI_TRANSACTION_ABORTED.
Proof.
  split.
  - apply (finish_commits_or_aborts top_level TRI_ERROR_ARANGO_CONFLICT
             (world_in TRI_TRANSACTION_CREATED)).
    discriminate.
  - apply (finish_commits_or_aborts top_level TRI_ERROR_ARANGO_CONFLICT
             (world_in TRI_TRANSACTION_RUNNING));
      [discriminate | reflexivity ..].
Defined.

(** Once a transaction is not running (or has no handle), no sequence of
    [commit], [abort] and [finish] calls changes anything, for real
    transactions and any low-level engine: every call is refused, [finish]
    with an error answering that error. *)
Theorem ended_transaction_stays_ended {Storage : Type}
    `{LL : LowLevel Storage} (t : Transaction) (cs : list Call)
    (w : World Storage) :
  _trx t = None \/ fst (getStatus t w) <> TRI_TRANSACTION_RUNNING ->
  forallb ends_transaction cs = true ->
  calls t cs w = (map refusal cs, w).
Proof.
  intros Hg. induction cs as [| c cs IH]; intros Hcs; [reflexivity |].
  cbn [forallb] in Hcs. apply andb_true_iff in Hcs as [Hc Hcs].
  assert (Hcall : call t c w = (refusal c, w)).
  { destruct c; try discriminate Hc; cbn [call refusal].
    - now apply commit_guard.
    - now apply abort_guard.
    - rewrite finish_unfold, commit_guard, abort_guard by assumption.
      destruct (errorNum =? TRI_ERROR_NO_ERROR); reflexivity. }
  rewrite calls_cons, Hcall. cbn [fst snd]. rewrite IH by assumption.
  reflexivity.
Qed.

Lemma ended_transaction_stays_ended_witness :
  calls top_level [CallCommit; CallFinish 3; CallAbort; CallFinish 0]
    (world_in TRI_TRANSACTION_COMMITTED)
  = ([TRI_ERROR_TRANSACTION_INTERNAL; 3; TRI_ERROR_TRANSACTION_INTERNAL;
      TRI_ERROR_TRANSACTION_INTERNAL],
     world_in TRI_TRANSACTION_COMMITTED).
Proof.
  apply (ended_transaction_stays_ended top_level
           [CallCommit; CallFinish 3; CallAbort; CallFinish 0]
           (world_in TRI_TRANSACTION_COMMITTED));
    [right; discriminate | reflexivity].
Defined.

(** Whatever is called on a transaction that is not real, in whatever
    order, the storage is never touched and no field of any handle other
    than the status of its own handle is written; when the transaction is
    nested, or has no handle, every handle stays exactly as it was. *)
Theorem nonreal_calls_frame {Storage : Type} `{LL : LowLevel Storage}
    (t : Transaction) (cs : list Call) (w : World Storage) :
  _isReal t = false ->
  differ_in_status_of t w (snd (calls t cs w))
  /\ (_nestingLevel t <> 0 \/ _trx t = None ->
      forall q : nat, handles (snd (calls t cs w)) q = handles w q).
Proof.
  intros Hr.
  assert (Hframe : differ_in_status_of t w (snd (calls t cs w))).
  { revert w. induction cs as [| c cs IH]; intros w;
      [apply differ_in_status_refl |].
    rewrite calls_cons. cbn [snd].
    eapply differ_in_status_trans; [now apply call_nonreal_frame | apply IH]. }
  split; [exact Hframe |].
  intros Hn q. destruct Hframe as [_ Hh]. destruct (Hh q) as (_ & _ & Hf).
  apply Hf. destruct Hn as [Hn | Hn]; [right; exact Hn |].
  left. rewrite Hn. discriminate.
Qed.

Lemma nonreal_calls_frame_witness :
  storage (snd (calls nested [CallBegin; CallCommit; CallBegin; CallAbort]
                  (world_in TRI_TRANSACTION_CREATED)))
  = []
  /\ forall q : nat,
       handles (snd (calls nested [CallBegin; CallCommit; CallBegin; CallAbort]
                       (world_in TRI_TRANSACTION_CREATED))) q
       = handles (world_in TRI_TRANSACTION_CREATED) q.
Proof.
  destruct (nonreal_calls_frame nested
              [CallBegin; CallCommit; CallBegin; CallAbort]
              (world_in TRI_TRANSACTION_CREATED) eq_refl) as [[Hs _] Hh].
  split; [exact Hs |]. apply Hh. left. discriminate.
Defined.

(** [begin] does not look at the status: a top-level transaction that is
    not real can be begun again after it was committed, and then committed
    again. *)
Example begin_after_commit :
  fst (calls top_level [CallBegin; CallCommit; CallCommit; CallBegin; CallCommit]
         (world_in TRI_TRANSACTION_CREATED))
  = [TRI_ERROR_NO_ERROR; TRI_ERROR_NO_ERROR; TRI_ERROR_TRANSACTION_INTERNAL;
     TRI_ERROR_NO_ERROR; TRI_ERROR_NO_ERROR].
Proof. reflexivity. Qed.

End TxnMore.

(** ** Bulk scan helpers: what they collect *)

Module ScanMore.
Import Scan ScanFacts.

Lemma unlock_locked (s : Scan) : unlock (locked s) = s.
Proof. destruct s as [ds t h]. unfold unlock, locked; cbn. f_equal. lia. Qed.

Lemma lookupSequential_Some (idx : PrimaryIndex) (position : BucketPosition)
    (total : Z) (d : TRI_doc_mptr_copy_t) :
  idx !! position = Some d ->
  lookupSequential idx position total
  = (Some d, S position,
     if decide (position = 0%nat) then Z.of_nat (length idx) else total).
Proof. intros H. unfold lookupSequential. rewrite H. reflexivity. Qed.

Lemma lookupSequential_None (idx : PrimaryIndex) (position : BucketPosition)
    (total : Z) :
  (length idx <= position)%nat ->
  lookupSequential idx position total
  = (None, position,
     if decide (position = 0%nat) then Z.of_nat (length idx) else total).
Proof.
  intros H. unfold lookupSequential.
  rewrite lookup_ge_None_2 by exact H. reflexivity.
Qed.

Lemma quota_done (batchSize limit count : Z) :
  batchSize <= count -> quota batchSize limit count = 0%nat.
Proof.
  intros H. unfold quota.
  replace (count <? batchSize) with false by (symmetry; apply Z.ltb_ge; lia).
  reflexivity.
Qed.

Lemma quota_last (batchSize limit count : Z) :
  count < batchSize -> limit <= count + 1 ->
  quota batchSize limit count = 1%nat.
Proof.
  intros Hc Hl. unfold quota.
  replace (count <? batchSize) with true by (symmetry; apply Z.ltb_lt; lia).
  lia.
Qed.

Lemma quota_step (batchSize limit count : Z) :
  count < batchSize -> count + 1 < limit ->
  quota batchSize limit count = S (quota batchSize limit (count + 1)).
Proof.
  intros Hc Hl. unfold quota.
  replace (count <? batchSize) with true by (symmetry; apply Z.ltb_lt; lia).
  destruct (Z.ltb_spec (count + 1) batchSize); lia.
Qed.

(** The loop of [readIncremental], in full: it passes over [skip]
    documents, then collects up to the quota, and the cursor has moved by
    the number of documents found. *)
Lemma readIncremental_loop_run (env : Env) (idx : PrimaryIndex)
    (batchSize limit : Z) :
  batchSize < 2 ^ 64 ->
  forall (fuel : nat) (count : Z) (p : BucketPosition) (skip : Z) (s : Scan),
    0 <= count -> 0 <= skip ->
    (length idx - p < fuel)%nat ->
    (length (docs s) + (length idx - p) <= memory env)%nat ->
    readIncremental_loop fuel env idx batchSize limit count p skip s
    = (Finished,
       (p + length (take (Z.to_nat skip + quota batchSize limit count)
                         (drop p idx)))%nat,
       skip - Z.of_nat (Z.to_nat skip `min` (length idx - p)),
       mkScan (docs s ++ take (quota batchSize limit count)
                              (drop (p + Z.to_nat skip) idx))
              (if decide (p = 0%nat)
               then (if (count <? batchSize) || (0 <? skip)
                     then Z.of_nat (length idx) else total s)
               else total s)
              (held s)).
Proof.
  intros Hb.
  induction fuel as [| fuel IH]; intros count p skip s Hc Hs Hf Hm; [lia |].
  cbn [readIncremental_loop].
  destruct (Z.ltb_spec 0 skip) as [Hskip | Hskip].
  - (* a document to pass over *)
    rewrite orb_true_r.
    destruct (decide (length idx <= p)%nat) as [Hend | Hin].
    + rewrite lookupSequential_None by assumption.
      rewrite !drop_ge by lia. rewrite !take_nil, app_nil_r. cbn [length].
      replace (length idx - p)%nat with 0%nat by lia.
      rewrite Nat.min_0_r, Nat.add_0_r, Z.sub_0_r.
      destruct (decide (p = 0%nat)); reflexivity.
    + destruct (lookup_lt_is_Some_2 idx p ltac:(lia)) as [d Hd].
      rewrite (lookupSequential_Some _ _ _ _ Hd).
      rewrite IH; cbn [docs total held]; [| lia | lia | lia | lia].
      rewrite decide_False by lia.
      replace (Z.to_nat skip) with (S (Z.to_nat (skip - 1))) by lia.
      rewrite (drop_S _ _ _ Hd). cbn [Nat.add take length].
      f_equal; [f_equal; [f_equal |] |].
      * lia.
      * lia.
      * rewrite Nat.add_succ_r. reflexivity.
  - (* collecting *)
    assert (skip = 0) by lia. subst skip.
    rewrite orb_false_r. change (Z.to_nat 0) with 0%nat. cbn [Nat.add].
    rewrite Nat.min_0_l, Z.sub_0_r, Nat.add_0_r.
    destruct (Z.ltb_spec count batchSize) as [Hlt | Hge].
    2:{ rewrite quota_done by lia. rewrite !take_0, app_nil_r. cbn [length].
        rewrite Nat.add_0_r. destruct s, (decide (p = 0%nat)); reflexivity. }
    destruct (decide (length idx <= p)%nat) as [Hend | Hin].
    + rewrite lookupSequential_None by assumption.
      rewrite !drop_ge by lia. rewrite !take_nil, app_nil_r. cbn [length].
      rewrite Nat.add_0_r. reflexivity.
    + destruct (lookup_lt_is_Some_2 idx p ltac:(lia)) as [d Hd].
      rewrite (lookupSequential_Some _ _ _ _ Hd).
      unfold emplace_back. cbn [docs total held].
      rewrite decide_True by lia.
      assert (Hu : u64 (count + 1) = count + 1)
        by (unfold u64; apply Z.mod_small; lia).
      rewrite Hu. rewrite (drop_S _ _ _ Hd).
      destruct (Z.leb_spec limit (count + 1)) as [Hlast | Hmore].
      * rewrite quota_last by lia. cbn [take length]. rewrite take_0.
        cbn [length]. rewrite Nat.add_1_r. reflexivity.
      * rewrite IH; cbn [docs total held];
          [| lia | lia | lia | rewrite length_app; cbn [length]; lia].
        rewrite (quota_step batchSize limit count) by lia.
        rewrite decide_False by lia.
        change (Z.to_nat 0) with 0%nat. cbn [Nat.add take length].
        rewrite Nat.add_0_r, Nat.min_0_l, <- app_assoc. cbn [app].
        rewrite Nat.add_succ_r. reflexivity.
Qed.

(** One call of [readIncremental] that gets its lock and its ditch. *)
Lemma readIncremental_run (env : Env) (idx : PrimaryIndex)
    (p : BucketPosition) (batchSize skip limit : Z) (s : Scan) :
  lock_result env = TRI_ERROR_NO_ERROR -> ditch_ordered env = true ->
  0 <= batchSize < 2 ^ 64 -> 0 <= skip ->
  Z.min batchSize 2048 <= Z.of_nat (memory env) ->
  (length (docs s) + length idx <= memory env)%nat ->
  readIncremental env idx p batchSize skip limit s
  = (Return TRI_ERROR_NO_ERROR,
     (p + length (take (Z.to_nat skip + quota batchSize limit 0)
                       (drop p idx)))%nat,
     skip - Z.of_nat (Z.to_nat skip `min` (length idx - p)),
     mkScan (docs s ++ take (quota batchSize limit 0)
                            (drop (p + Z.to_nat skip) idx))
            (if decide (p = 0%nat)
             then (if (0 <? batchSize) || (0 <? skip)
                   then Z.of_nat (length idx) else total s)
             else total s)
            (held s)).
Proof.
  intros Hl Hd Hb Hs Hmem Hm.
  unfold readIncremental, lock, orderDitch_failed. rewrite Hl, Hd.
  cbn [Z.eqb negb TRI_ERROR_NO_ERROR]. fold (locked s).
  assert (Hres : (if 2048 <? batchSize then reserve env 2048
                  else if 0 <? batchSize then reserve env batchSize
                  else true) = true).
  { unfold reserve.
    destruct (2048 <? batchSize) eqn:H1; [apply bool_decide_eq_true; lia |].
    apply Z.ltb_ge in H1.
    destruct (0 <? batchSize); [apply bool_decide_eq_true; lia | reflexivity]. }
  rewrite Hres.
  rewrite (readIncremental_loop_run env idx batchSize limit)
    by (cbn [docs locked]; lia).
  unfold unlock, locked. cbn [docs total held].
  replace (held s + 1 - 1) with (held s) by lia. reflexivity.
Qed.

(** One page: [readIncremental] passes over [skip] documents from the
    cursor on, collects the next [quota] documents in the order of the
    index, moves the cursor behind the last document it looked at, takes
    what it could not pass over back to the caller in [skip], and gives the
    lock back. *)
Theorem readIncremental_page (env : Env) (idx : PrimaryIndex)
    (p : BucketPosition) (batchSize skip limit : Z) (s : Scan) :
  lock_result env = TRI_ERROR_NO_ERROR -> ditch_ordered env = true ->
  0 <= batchSize < 2 ^ 64 -> 0 <= skip ->
  Z.min batchSize 2048 <= Z.of_nat (memory env) ->
  (length (docs s) + length idx <= memory env)%nat ->
  let '(exit, p', skip', s') :=
    readIncremental env idx p batchSize skip limit s in
  exit = Return TRI_ERROR_NO_ERROR
  /\ docs s' = docs s ++ take (quota batchSize limit 0)
                              (drop (p + Z.to_nat skip) idx)
  /\ p' = (p + length (take (Z.to_nat skip + quota batchSize limit 0)
                            (drop p idx)))%nat
  /\ skip' = skip - Z.of_nat (Z.to_nat skip `min` (length idx - p))
  /\ held s' = held s
  /\ (0 < batchSize <= limit -> quota batchSize limit 0 = Z.to_nat batchSize)
  /\ (0 < batchSize -> limit = 0 -> quota batchSize limit 0 = 1%nat)
  /\ (batchSize = 0 -> quota batchSize limit 0 = 0%nat).
Proof.
  intros Hl Hd Hb Hs Hmem Hm.
  rewrite (readIncremental_run env idx p batchSize skip limit s) by assumption.
  cbn [docs held].
  repeat split; unfold quota.
  - intros [H1 H2].
    replace (0 <? batchSize) with true by (symmetry; apply Z.ltb_lt; lia).
    lia.
  - intros H1 H2.
    replace (0 <? batchSize) with true by (symmetry; apply Z.ltb_lt; lia).
    lia.
  - intros ->. reflexivity.
Qed.

Lemma readIncremental_page_witness :
  let '(exit, p', skip', s') := readIncremental calm five 1 2 1 10 idle in
  exit = Return TRI_ERROR_NO_ERROR
  /\ docs s' = [docC; docD]
  /\ p' = 4%nat
  /\ skip' = 0
  /\ held s' = 0.
Proof.
  pose proof (readIncremental_page calm five 1 2 1 10 idle eq_refl eq_refl
                ltac:(lia) ltac:(lia) ltac:(cbn; lia) ltac:(cbn; lia)) as H.
  destruct (readIncremental calm five 1 2 1 10 idle) as [[[e p'] k'] s'].
  destruct H as (He & Hdocs & Hp & Hk & Hh & _).
  repeat split; assumption.
Defined.

(** A [limit] of 0 does not mean "nothing": one document still comes. *)
Example readIncremental_limit_0 :
  readIncremental calm five 0 3 0 0 idle
  = (Return TRI_ERROR_NO_ERROR, 1%nat, 0, mkScan [docA] 5 0).
Proof. reflexivity. Qed.



Lemma readIncremental_gives_lock_back_witness :
  exists code internalSkip' skip' s',
    readIncremental (mkEnv TRI_ERROR_NO_ERROR true 2 true) five 0 2 0 10
      (mkScan [docE] 0 0)
    = (Return code, internalSkip', skip', s')
    /\ (code = TRI_ERROR_NO_ERROR \/ code = TRI_ERROR_OUT_OF_MEMORY)
    /\ held s' = held (mkScan [docE] 0 0).
Proof.
  apply (readIncremental_gives_lock_back
           (mkEnv TRI_ERROR_NO_ERROR true 2 true) five 0 2 0 10
           (mkScan [docE] 0 0)); reflexivity.
Defined.

(** *** [readSlice], forward *)

Lemma readSlice_skip_run (idx : PrimaryIndex) :
  forall (fuel k : nat) (p : BucketPosition) (total : Z),
    (length idx - p < fuel)%nat ->
    readSlice_skip fuel idx p (Z.of_nat k) total
    = let total' := if decide (p = 0%nat /\ k <> 0%nat)
                    then Z.of_nat (length idx) else total in
      if decide (k <= length idx - p)%nat then Passed (p + k) total'
      else TooFew total'.
Proof.
  induction fuel as [| fuel IH]; intros k p total Hf; [lia |].
  cbn [readSlice_skip]. cbn zeta.
  destruct k as [| k].
  - cbn [Z.of_nat Z.ltb Z.compare].
    rewrite (decide_False (P := (p = 0%nat /\ 0%nat <> 0%nat)))
      by (intros [_ H]; congruence).
    rewrite decide_True by lia. rewrite Nat.add_0_r. reflexivity.
  - replace (0 <? Z.of_nat (S k)) with true by (symmetry; apply Z.ltb_lt; lia).
    destruct (decide (length idx <= p)%nat) as [Hend | Hin].
    + rewrite lookupSequential_None by assumption.
      rewrite (decide_False (P := (S k <= length idx - p)%nat)) by lia.
      destruct (decide (p = 0%nat)) as [-> | Hp].
      * rewrite decide_True by (split; [reflexivity | discriminate]).
        reflexivity.
      * rewrite decide_False by (intros [H _]; contradiction). reflexivity.
    + destruct (lookup_lt_is_Some_2 idx p ltac:(lia)) as [d Hd].
      rewrite (lookupSequential_Some _ _ _ _ Hd).
      replace (Z.of_nat (S k) - 1) with (Z.of_nat k) by lia.
      rewrite IH by lia. cbn zeta.
      rewrite (decide_False (P := (S p = 0%nat /\ k <> 0%nat)))
        by (intros [H _]; discriminate).
      replace (S p + k)%nat with (p + S k)%nat by lia.
      destruct (decide (p = 0%nat)) as [-> | Hp].
      * rewrite (decide_True (P := (0%nat = 0%nat /\ S k <> 0%nat)))
          by (split; [reflexivity | discriminate]).
        destruct (decide (k <= length idx - 1)%nat),
          (decide (S k <= length idx - 0)%nat); try lia; reflexivity.
      * rewrite (decide_False (P := (p = 0%nat /\ S k <> 0%nat)))
          by (intros [H _]; contradiction).
        destruct (decide (k <= length idx - S p)%nat),
          (decide (S k <= length idx - p)%nat); try lia; reflexivity.
Qed.

Lemma readSlice_collect_run (env : Env) (idx : PrimaryIndex) (limit : Z) :
  forall (fuel : nat) (p : BucketPosition) (count : Z) (s : Scan),
    0 <= count < limit -> limit < 2 ^ 64 ->
    (length idx - p < fuel)%nat ->
    (length (docs s) + (length idx - p) <= memory env)%nat ->
    readSlice_collect fuel env idx limit p count s
    = (Finished,
       mkScan (docs s ++ take (Z.to_nat (limit - count)) (drop p idx))
              (if decide (p = 0%nat) then Z.of_nat (length idx) else total s)
              (held s)).
Proof.
  induction fuel as [| fuel IH]; intros p count s Hc Hl Hf Hm; [lia |].
  cbn [readSlice_collect].
  destruct (decide (length idx <= p)%nat) as [Hend | Hin].
  - rewrite lookupSequential_None by assumption.
    rewrite drop_ge by lia. rewrite take_nil, app_nil_r. reflexivity.
  - destruct (lookup_lt_is_Some_2 idx p ltac:(lia)) as [d Hd].
    rewrite (lookupSequential_Some _ _ _ _ Hd).
    unfold emplace_back. cbn [docs total held].
    rewrite decide_True by lia.
    assert (Hu : u64 (count + 1) = count + 1)
      by (unfold u64; apply Z.mod_small; lia).
    rewrite Hu, (drop_S _ _ _ Hd).
    replace (Z.to_nat (limit - count))
      with (S (Z.to_nat (limit - (count + 1)))) by lia.
    cbn [take].
    destruct (Z.ltb_spec (count + 1) limit) as [Hlt | Hge].
    + rewrite IH; cbn [docs total held];
        [| lia | lia | lia | rewrite length_app; cbn [length]; lia].
      rewrite decide_False by lia. rewrite <- app_assoc. reflexivity.
    + replace (limit - (count + 1)) with 0 by lia.
      change (Z.to_nat 0) with 0%nat. rewrite take_0. reflexivity.
Qed.

(** One call of [readSlice] with a [skip] that is not negative. *)
Lemma readSlice_forward_run (env : Env) (idx : PrimaryIndex) (skip limit : Z)
    (s : Scan) :
  lock_result env = TRI_ERROR_NO_ERROR -> ditch_ordered env = true ->
  (length (docs s) + length idx <= memory env)%nat ->
  0 <= skip -> 0 < limit < 2 ^ 64 ->
  readSlice env idx skip limit s
  = (Return TRI_ERROR_NO_ERROR,
     mkScan (docs s ++ take (Z.to_nat limit) (drop (Z.to_nat skip) idx))
            (Z.of_nat (length idx)) (held s)).
Proof.
  intros Hl Hd Hm Hs Hlim.
  set (k := Z.to_nat skip). replace skip with (Z.of_nat k) by lia.
  unfold readSlice, lock, orderDitch_failed. rewrite Hl, Hd.
  replace (limit =? 0) with false by (symmetry; apply Z.eqb_neq; lia).
  replace (Z.of_nat k <? 0) with false by (symmetry; apply Z.ltb_ge; lia).
  cbn [Z.eqb negb TRI_ERROR_NO_ERROR docs total held].
  rewrite readSlice_skip_run by lia. cbn zeta.
  rewrite Nat.sub_0_r. cbn [Nat.add].
  destruct (decide (k <= length idx)%nat) as [Hin | Hout].
  - rewrite readSlice_collect_run; cbn [docs total held]; [| lia ..].
    cbn [readSlice_finish]. unfold unlock. cbn [docs total held].
    replace (limit - 0) with limit by lia.
    replace (held s + 1 - 1) with (held s) by lia.
    destruct (decide (k = 0%nat)) as [-> | Hk]; [reflexivity |].
    rewrite decide_True by (split; [reflexivity | assumption]). reflexivity.
  - rewrite decide_True by (split; [reflexivity | lia]).
    unfold unlock. cbn [docs total held].
    rewrite drop_ge by lia. rewrite take_nil, app_nil_r.
    replace (held s + 1 - 1) with (held s) by lia. reflexivity.
Qed.

(** With a [skip] that is not negative, [readSlice] returns the documents
    of the index from position [skip] on, at most [limit] of them, in the
    order of the index; a [skip] beyond the end gives no document and no
    error; [total] reports the size of the index and the lock is back. *)
Theorem readSlice_forward (env : Env) (idx : PrimaryIndex) (skip limit : Z)
    (s : Scan) :
  lock_result env = TRI_ERROR_NO_ERROR -> ditch_ordered env = true ->
  (length (docs s) + length idx <= memory env)%nat ->
  0 <= skip -> 0 < limit < 2 ^ 64 ->
  readSlice env idx skip limit s
  = (Return TRI_ERROR_NO_ERROR,
     mkScan (docs s ++ take (Z.to_nat limit) (drop (Z.to_nat skip) idx))
            (Z.of_nat (length idx)) (held s))
  /\ length (take (Z.to_nat limit) (drop (Z.to_nat skip) idx))
     = (Z.to_nat limit `min` (length idx - Z.to_nat skip))%nat.
Proof.
  intros Hl Hd Hm Hs Hlim.
  split; [now apply readSlice_forward_run |].
  rewrite length_take, length_drop. reflexivity.
Qed.

Lemma readSlice_forward_witness :
  readSlice calm five 3 10 idle
  = (Return TRI_ERROR_NO_ERROR, mkScan [docD; docE] 5 0).
Proof.
  apply (readSlice_forward calm five 3 10 idle);
    [reflexivity | reflexivity | cbn; lia | lia | lia].
Defined.

(** What [readSlice] does with a negative [skip], once more, for use
    below. *)
Lemma readSlice_backward_run (env : Env) (idx : PrimaryIndex)
    (skip limit : Z) (s : Scan) :
  lock_result env = TRI_ERROR_NO_ERROR -> ditch_ordered env = true ->
  (length (docs s) + length idx <= memory env)%nat ->
  skip < 0 -> 0 < limit < 2 ^ 64 ->
  readSlice env idx skip limit s
  = (Return TRI_ERROR_NO_ERROR,
     mkScan (docs s ++ take (Z.to_nat limit)
                         (drop (Z.to_nat (- skip)) (reverse idx)))
            (total s) (held s)).
Proof.
  intros Hl Hd Hm Hs Hlim.
  set (n := Z.to_nat (- skip)).
  replace skip with (- Z.of_nat n) by lia.
  unfold readSlice, lock, orderDitch_failed. rewrite Hl, Hd.
  replace (limit =? 0) with false by (symmetry; apply Z.eqb_neq; lia).
  replace (- Z.of_nat n <? 0) with true by (symmetry; apply Z.ltb_lt; lia).
  cbn [Z.eqb negb TRI_ERROR_NO_ERROR]. fold (locked s).
  destruct (decide (n <= length idx)%nat) as [Hin | Hout].
  - rewrite (readSlice_skip_back_enough n idx (S (length idx)) 0)
      by (cbn; lia).
    destruct (lookup_lt_is_Some_2 (reverse idx) (0 + n - 1)) as [d Hd'];
      [rewrite length_reverse; lia |].
    rewrite Hd'.
    rewrite (readSlice_collect_back_spec env idx limit)
      by (cbn [docs locked]; lia).
    cbn [readSlice_finish]. unfold unlock, locked. cbn [docs total held].
    replace (limit - 0) with limit by lia.
    replace (held s + 1 - 1) with (held s) by lia. reflexivity.
  - destruct (readSlice_skip_back_short idx (S (length idx)) n 0)
      as (p' & k' & Hshort); [lia | lia | lia |].
    rewrite Hshort, unlock_locked.
    rewrite drop_ge by (rewrite length_reverse; lia).
    rewrite take_nil, app_nil_r. destruct s; reflexivity.
Qed.

(** A negative [skip] is the positive one on the index read from its end:
    both calls return the same documents. *)
Theorem readSlice_backward_is_forward_on_reverse (env : Env)
    (idx : PrimaryIndex) (k limit : Z) (s : Scan) :
  lock_result env = TRI_ERROR_NO_ERROR -> ditch_ordered env = true ->
  (length (docs s) + length idx <= memory env)%nat ->
  0 < k -> 0 < limit < 2 ^ 64 ->
  fst (readSlice env idx (- k) limit s) = Return TRI_ERROR_NO_ERROR
  /\ fst (readSlice env (reverse idx) k limit s) = Return TRI_ERROR_NO_ERROR
  /\ docs (snd (readSlice env idx (- k) limit s))
     = docs (snd (readSlice env (reverse idx) k limit s))
  /\ held (snd (readSlice env idx (- k) limit s)) = held s
  /\ held (snd (readSlice env (reverse idx) k limit s)) = held s.
Proof.
  intros Hl Hd Hm Hk Hlim.
  rewrite (readSlice_backward_run env idx (- k) limit s) by (try assumption; lia).
  rewrite (readSlice_forward_run env (reverse idx) k limit s)
    by (try assumption; try rewrite length_reverse; lia).
  cbn [fst snd docs held]. rewrite Z.opp_involutive. repeat split.
Qed.

Lemma readSlice_backward_is_forward_on_reverse_witness :
  docs (snd (readSlice calm five (- 2) 2 idle))
  = docs (snd (readSlice calm (reverse five) 2 2 idle)).
Proof.
  apply (readSlice_backward_is_forward_on_reverse calm five 2 2 idle);
    [reflexivity | reflexivity | cbn; lia | lia | lia].
Defined.

(** *** Locks: every way out of [readSlice] and [all] *)

Lemma readSlice_collect_back_held (env : Env) (idx : PrimaryIndex) (limit : Z) :
  forall (fuel : nat) (p : BucketPosition) (count : Z) (s : Scan),
    held (readSlice_collect_back fuel env idx limit p count s).2 = held s.
Proof.
  induction fuel as [| fuel IH]; intros p count s; [reflexivity |].
  cbn [readSlice_collect_back].
  destruct (lookupSequentialReverse idx p) as [[d |] p']; [| reflexivity].
  destruct (emplace_back env (docs s) d); [| reflexivity].
  destruct (u64 (count + 1) <? limit); [rewrite IH |]; reflexivity.
Qed.

Lemma readSlice_collect_held (env : Env) (idx : PrimaryIndex) (limit : Z) :
  forall (fuel : nat) (p : BucketPosition) (count : Z) (s : Scan),
    held (readSlice_collect fuel env idx limit p count s).2 = held s.
Proof.
  induction fuel as [| fuel IH]; intros p count s; [reflexivity |].
  cbn [readSlice_collect].
  destruct (lookupSequential idx p (total s)) as [[[d |] p'] t'];
    [| reflexivity].
  cbn [docs total held].
  destruct (emplace_back env (docs s) d); [| reflexivity].
  destruct (u64 (count + 1) <? limit); [rewrite IH |]; reflexivity.
Qed.

Lemma readSlice_finish_accounted (r : Loop * Scan) (h : Z) :
  r.1 <> OutOfFuel -> held r.2 = h + 1 ->
  lock_accounted h (readSlice_finish r).1 (readSlice_finish r).2.
Proof.
  destruct r as [[| |] s]; cbn; intros Hf Hh; [lia | lia | congruence].
Qed.

(** Once the ditch is there, [readSlice] accounts for its lock on every
    way out: whatever the index, [skip], [limit] and the memory are, it
    either returns with the lock given back (or never taken), or lets an
    exception through with the lock still held; it does nothing else. *)
Theorem readSlice_accounts_for_lock (env : Env) (idx : PrimaryIndex)
    (skip limit : Z) (s : Scan) :
  ditch_ordered env = true ->
  lock_accounted (held s) (readSlice env idx skip limit s).1
    (readSlice env idx skip limit s).2.
Proof.
  intros Hd. unfold readSlice, lock, orderDitch_failed. rewrite Hd.
  destruct (limit =? 0); [reflexivity |].
  destruct (Z.eqb_spec (lock_result env) TRI_ERROR_NO_ERROR) as [Hl | Hl].
  2:{ cbn [Z.eqb negb].
      replace (lock_result env =? TRI_ERROR_NO_ERROR) with false
        by (symmetry; now apply Z.eqb_neq).
      reflexivity. }
  cbn [Z.eqb negb TRI_ERROR_NO_ERROR]. fold (locked s).
  destruct (skip <? 0).
  - pose proof (readSlice_skip_back_fuel idx (S (length idx)) 0 skip
                  ltac:(lia)) as Hs.
    destruct (readSlice_skip_back _ _ _ _) as [[[[d |] p] k] |];
      [| cbn; lia | contradiction].
    apply readSlice_finish_accounted;
      [apply readSlice_collect_back_fuel; lia
      | rewrite readSlice_collect_back_held; reflexivity].
  - pose proof (readSlice_skip_fuel idx (S (length idx)) 0 skip
                  (total (locked s)) ltac:(lia)) as Hs.
    destruct (readSlice_skip _ _ _ _ _) as [p t | t |];
      [| cbn; lia | contradiction].
    apply readSlice_finish_accounted;
      [apply readSlice_collect_fuel; lia
      | rewrite readSlice_collect_held; reflexivity].
Qed.

Lemma readSlice_accounts_for_lock_witness :
  lock_accounted 0
    (readSlice (mkEnv TRI_ERROR_NO_ERROR true 2 true) five 0 10 idle).1
    (readSlice (mkEnv TRI_ERROR_NO_ERROR true 2 true) five 0 10 idle).2
  /\ lock_accounted 0 (readSlice calm five (-9) 3 idle).1
       (readSlice calm five (-9) 3 idle).2.
Proof.
  split.
  - apply (readSlice_accounts_for_lock
             (mkEnv TRI_ERROR_NO_ERROR true 2 true) five 0 10 idle).
    reflexivity.
  - apply (readSlice_accounts_for_lock calm five (-9) 3 idle). reflexivity.
Defined.

(** *** [all] *)

Lemma all_loop_run (env : Env) (idx : PrimaryIndex) :
  forall (fuel : nat) (p : BucketPosition) (total : Z) (ids : list string),
    (length idx - p < fuel)%nat ->
    (length ids + (length idx - p) <= memory env)%nat ->
    all_loop fuel env idx p total ids
    = (Finished, ids ++ map TRI_EXTRACT_MARKER_KEY (drop p idx)).
Proof.
  induction fuel as [| fuel IH]; intros p total ids Hf Hm; [lia |].
  cbn [all_loop].
  destruct (decide (length idx <= p)%nat) as [Hend | Hin].
  - rewrite lookupSequential_None by assumption.
    rewrite drop_ge by lia. cbn [map]. rewrite app_nil_r. reflexivity.
  - destruct (lookup_lt_is_Some_2 idx p ltac:(lia)) as [d Hd].
    rewrite (lookupSequential_Some _ _ _ _ Hd).
    unfold emplace_back. rewrite decide_True by lia.
    rewrite IH by (try rewrite length_app; cbn [length]; lia).
    rewrite (drop_S _ _ _ Hd). cbn [map]. rewrite <- app_assoc. reflexivity.
Qed.

Lemma all_loop_fuel (env : Env) (idx : PrimaryIndex) :
  forall (fuel : nat) (p : BucketPosition) (total : Z) (ids : list string),
    (length idx - p < fuel)%nat ->
    (all_loop fuel env idx p total ids).1 <> OutOfFuel.
Proof.
  induction fuel as [| fuel IH]; intros p total ids Hf; [lia |].
  cbn [all_loop]. unfold lookupSequential.
  destruct (idx !! p) as [d |] eqn:Hd; [| discriminate].
  apply lookup_lt_Some in Hd.
  destruct (emplace_back env ids (TRI_EXTRACT_MARKER_KEY d));
    [apply IH; lia | discriminate].
Qed.

(** [all] appends the key of every document of the index, each once and in
    the order of the index, to what [ids] held before; with [lock = false]
    it leaves the locks alone, with [lock = true] it gives back the one it
    took.  An empty index gives no key and no error. *)
Theorem all_returns_every_key (env : Env) (idx : PrimaryIndex)
    (ids : list string) (lock_ : bool) (s : Scan) :
  (lock_ = true -> lock_result env = TRI_ERROR_NO_ERROR) ->
  ditch_ordered env = true ->
  (length ids + length idx <= memory env)%nat ->
  all env idx ids lock_ s
  = (Return TRI_ERROR_NO_ERROR, ids ++ map TRI_EXTRACT_MARKER_KEY idx, s).
Proof.
  intros Hl Hd Hm. unfold all, lock, orderDitch_failed. rewrite Hd.
  assert (Hloop :
    (if 0 <? Z.of_nat (length idx)
     then all_loop (S (length idx)) env idx 0%nat 0 ids
     else (Finished, ids))
    = (Finished, ids ++ map TRI_EXTRACT_MARKER_KEY idx)).
  { destruct (Z.ltb_spec 0 (Z.of_nat (length idx))) as [Hpos | Hzero].
    - rewrite all_loop_run by lia. reflexivity.
    - destruct idx; [| cbn [length] in Hzero; lia].
      cbn [map]. rewrite app_nil_r. reflexivity. }
  destruct lock_.
  - rewrite (Hl eq_refl). cbn [Z.eqb negb andb TRI_ERROR_NO_ERROR].
    rewrite Hloop. fold (locked s). rewrite unlock_locked. reflexivity.
  - cbn [andb negb]. rewrite Hloop. reflexivity.
Qed.

Lemma all_returns_every_key_witness :
  all calm five ["X"%string] true idle
  = (Return TRI_ERROR_NO_ERROR, ["X"; "A"; "B"; "C"; "D"; "E"]%string, idle).
Proof.
  apply (all_returns_every_key calm five ["X"%string] true idle);
    [reflexivity | reflexivity | cbn; lia].
Defined.

(** With the lock left to the caller ([lock = false]), [all] never takes or
    gives back a lock, whatever happens; with [lock = true] and a ditch it
    accounts for the lock like [readSlice]. *)
Theorem all_accounts_for_lock (env : Env) (idx : PrimaryIndex)
    (ids : list string) (s : Scan) :
  (all env idx ids false s).2 = s
  /\ (ditch_ordered env = true ->
      lock_accounted (held s) (all env idx ids true s).1.1
        (all env idx ids true s).2).
Proof.
  assert (Hcase : forall l : Loop * list string,
            l.1 <> OutOfFuel ->
            forall s1 : Scan,
              lock_accounted (held s1 - 1)
                (let '(l0, ids0) := l in
                 match l0 with
                 | Finished => (Return TRI_ERROR_NO_ERROR, ids0, unlock s1)
                 | Threw => (Throw, ids0, s1)
                 | OutOfFuel => (Exhausted, ids0, s1)
                 end).1.1
                (let '(l0, ids0) := l in
                 match l0 with
                 | Finished => (Return TRI_ERROR_NO_ERROR, ids0, unlock s1)
                 | Threw => (Throw, ids0, s1)
                 | OutOfFuel => (Exhausted, ids0, s1)
                 end).2).
  { intros [[| |] i]; cbn; intros Hf s1; [reflexivity | lia | congruence]. }
  split.
  - unfold all. cbn [andb].
    destruct (orderDitch_failed env); [reflexivity |].
    destruct (if 0 <? Z.of_nat (length idx) then _ else _) as [[| |] i];
      reflexivity.
  - intros Hd. unfold all, lock, orderDitch_failed. rewrite Hd.
    destruct (Z.eqb_spec (lock_result env) TRI_ERROR_NO_ERROR) as [Hl | Hl].
    2:{ replace (lock_result env =? TRI_ERROR_NO_ERROR) with false
          by (symmetry; now apply Z.eqb_neq).
        reflexivity. }
    cbn [Z.eqb negb andb TRI_ERROR_NO_ERROR].
    fold (locked s).
    replace (lock_accounted (held s))
      with (lock_accounted (held (locked s) - 1)) by (cbn; f_equal; lia).
    apply Hcase.
    destruct (0 <? Z.of_nat (length idx)); [| discriminate].
    apply all_loop_fuel. lia.
Qed.

Lemma all_accounts_for_lock_witness :
  (all (no_ditch 1000 true) five [] false idle).2 = idle
  /\ lock_accounted 0
       (all (mkEnv TRI_ERROR_NO_ERROR true 2 true) five [] true idle).1.1
       (all (mkEnv TRI_ERROR_NO_ERROR true 2 true) five [] true idle).2.
Proof.
  split.
  - apply (all_accounts_for_lock (no_ditch 1000 true) five [] idle).
  - apply (all_accounts_for_lock (mkEnv TRI_ERROR_NO_ERROR true 2 true)
             five [] idle).
    reflexivity.
Defined.

(** *** [any] *)

Section AnyFacts.
Variable lookupRandom :
  PrimaryIndex -> RandomCursor -> option TRI_doc_mptr_copy_t * RandomCursor.



End AnyFacts.


End ScanMore.

(** ** Document operations: refusals, results, dispatch *)

Module CrudMore.
Import Crud CrudFacts.

Section Facts.
Context {W : Type} `{C : Collaborators W}.

(** An unknown collection is reported before the value is looked at, and a
    [_key] that is missing or no string before the collection is touched:
    in both cases the world is as it was.  [insertLocal] has not even asked
    for a tick when it reports the unknown collection. *)
Theorem refused_before_any_access (collectionName : string)
    (value : Slice) (fields : gmap string Slice)
    (options : OperationOptions) (w : W) :
  (getCollectionId collectionName = 0 ->
   documentLocal collectionName value options w
   = (Returned (OperationResult_error TRI_ERROR_ARANGO_COLLECTION_NOT_FOUND), w)
   /\ insertLocal collectionName value options w
      = (Returned (OperationResult_error TRI_ERROR_ARANGO_COLLECTION_NOT_FOUND), w)
   /\ removeLocal collectionName value options w
      = (Returned (OperationResult_error TRI_ERROR_ARANGO_COLLECTION_NOT_FOUND), w))
  /\ (getCollectionId collectionName <> 0 ->
      isString (get (VObject fields) "_key") = false ->
      documentLocal collectionName (VObject fields) options w
      = (Returned (OperationResult_error TRI_ERROR_ARANGO_DOCUMENT_KEY_BAD), w)
      /\ removeLocal collectionName (VObject fields) options w
         = (Returned (OperationResult_error TRI_ERROR_ARANGO_DOCUMENT_KEY_BAD), w))
  /\ (getCollectionId collectionName <> 0 ->
      isObject value = false -> isString value = false ->
      documentLocal collectionName value options w
      = (Returned (OperationResult_error TRI_ERROR_ARANGO_DOCUMENT_KEY_BAD), w)).
Proof.
  split; [| split].
  - intros Hcid. unfold documentLocal, insertLocal, removeLocal.
    rewrite Hcid. repeat split.
  - intros Hcid Hkey.
    unfold documentLocal, removeLocal, documentLocal_extract,
      removeLocal_extract, TRI_VOC_ATTRIBUTE_KEY.
    replace (getCollectionId collectionName =? 0) with false
      by (symmetry; now apply Z.eqb_neq).
    cbn [isObject]. rewrite Hkey. split; reflexivity.
  - intros Hcid Ho Hs. unfold documentLocal, documentLocal_extract.
    replace (getCollectionId collectionName =? 0) with false
      by (symmetry; now apply Z.eqb_neq).
    rewrite Ho, Hs. reflexivity.
Qed.

(** Every refusal of [insertLocal] comes before the physical insert: a
    [_key] of the wrong type, a [_key] the key generator rejects (its error
    is handed on), and a ditch that cannot be ordered all end the call in
    the world that the tick server, and in the last case the ditch, left. *)
Theorem insertLocal_refuses_before_writing (collectionName : string)
    (fields : gmap string Slice) (options : OperationOptions) (w w1 : W)
    (tick : Z) :
  let cid := getCollectionId collectionName in
  cid <> 0 ->
  TRI_NewTickServer w = (tick, w1) ->
  (forall v, fields !! "_key" = Some v -> isNone v = false ->
             isString v = false ->
     insertLocal collectionName (VObject fields) options w
     = (Returned (OperationResult_error TRI_ERROR_ARANGO_DOCUMENT_KEY_BAD), w1))
  /\ (forall k, fields !! "_key" = Some (VString k) ->
                keyGenerator_validate cid k false <> TRI_ERROR_NO_ERROR ->
      insertLocal collectionName (VObject fields) options w
      = (Returned (OperationResult_error (keyGenerator_validate cid k false)),
         w1))
  /\ (forall merge w2,
        insertLocal_merge cid tick (VObject fields) = Merge merge ->
        orderDitch cid w1 = (false, w2) ->
        insertLocal collectionName (VObject fields) options w
        = (Returned (OperationResult_error TRI_ERROR_OUT_OF_MEMORY), w2)).
Proof.
  intros cid Hcid Htick.
  assert (Hrun : forall X,
    (match insertLocal_merge cid tick (VObject fields) with
     | Merge merge =>
       insertLocal_store cid collectionName
         (VObject (VPackCollection_merge fields merge)) options w1
     | Refuse c => (Returned (OperationResult_error c), w1)
     end) = X ->
    insertLocal collectionName (VObject fields) options w = X).
  { intros X <-. unfold insertLocal. fold cid.
    replace (cid =? 0) with false by (symmetry; now apply Z.eqb_neq).
    rewrite Htick. reflexivity. }
  split; [| split].
  - intros v Hv Hn Hs. apply Hrun.
    unfold insertLocal_merge, TRI_VOC_ATTRIBUTE_KEY.
    rewrite (get_object _ _ _ Hv), Hn, Hs. reflexivity.
  - intros k Hk Hbad. apply Hrun.
    unfold insertLocal_merge, TRI_VOC_ATTRIBUTE_KEY.
    rewrite (get_object _ _ _ Hk). cbn [isNone isString negb copyString].
    replace (keyGenerator_validate cid k false =? TRI_ERROR_NO_ERROR)
      with false by (symmetry; now apply Z.eqb_neq).
    reflexivity.
  - intros merge w2 Hmerge Hditch. apply Hrun. rewrite Hmerge.
    unfold insertLocal_store. rewrite Hditch. reflexivity.
Qed.

(** What [insertLocal_merge] puts together when it does not refuse. *)
Lemma insertLocal_merge_accepted (cid tick : Z) (fields merge : gmap string Slice) :
  insertLocal_merge cid tick (VObject fields) = Merge merge ->
  VPackCollection_merge fields merge !! "_key"
  = Some (VString (insertLocal_key cid tick fields))
  /\ VPackCollection_merge fields merge !! "_rev"
     = Some (VString (to_string tick))
  /\ merge !! "_id" = Some (VCustom (243 :: storeNumber cid 8)).
Proof.
  unfold insertLocal_merge, insertLocal_key, VPackCollection_merge,
    TRI_VOC_ATTRIBUTE_KEY, TRI_VOC_ATTRIBUTE_REV, TRI_VOC_ATTRIBUTE_ID.
  cbn [get]. cbv zeta.
  destruct (fields !! "_key") as [v |] eqn:Hv; cbn [default from_option id].
  - destruct (isNone v) eqn:Hn; cbv beta iota zeta.
    + intros [= <-]. destruct v; try discriminate Hn.
      split; [apply lookup_union_Some_l; simplify_map_eq; reflexivity |].
      split; [apply lookup_union_Some_l |]; simplify_map_eq; reflexivity.
    + destruct (isString v) eqn:Hs; cbn [negb]; cbv beta iota zeta;
        [| discriminate].
      destruct v; try discriminate Hs. cbn [copyString].
      destruct (negb _); cbv beta iota zeta; [discriminate |]. intros [= <-].
      split; [rewrite lookup_union_r by (simplify_map_eq; reflexivity);
              exact Hv |].
      split; [apply lookup_union_Some_l |]; simplify_map_eq; reflexivity.
  - cbn [isNone]. cbv beta iota zeta. intros [= <-].
    split; [apply lookup_union_Some_l; simplify_map_eq; reflexivity |].
    split; [apply lookup_union_Some_l |]; simplify_map_eq; reflexivity.
Qed.

(** When the collection stores the document it is handed, [insertLocal]
    answers with the new document's [_key] (the caller's, or the generated
    one), with [_id] made of the collection name, a slash and that key,
    and with [_rev], the decimal rendering of the tick. *)
Theorem insertLocal_answers_id_key_rev (collectionName : string)
    (fields merge : gmap string Slice) (options : OperationOptions)
    (w w1 w2 w3 : W) (tick : Z) (mptr : TRI_doc_mptr_copy_t) :
  let cid := getCollectionId collectionName in
  let doc := VObject (VPackCollection_merge fields merge) in
  let key := insertLocal_key cid tick fields in
  cid <> 0 ->
  TRI_NewTickServer w = (tick, w1) ->
  insertLocal_merge cid tick (VObject fields) = Merge merge ->
  orderDitch cid w1 = (true, w2) ->
  document_insert cid doc (negb (isLocked cid TRI_TRANSACTION_WRITE w2))
    (waitForSync options) w2
  = (TRI_ERROR_NO_ERROR, mptr, w3) ->
  vpack mptr = doc ->
  insertLocal collectionName (VObject fields) options w
  = (Returned (OperationResult_ok (VObject
       (<["_key" := VString key]>
        (<["_rev" := VString (to_string tick)]>
         (<["_id" := VString (collectionName +:+ "/" +:+ key)]> ∅))))), w3).
Proof.
  intros cid doc key Hcid Htick Hmerge Hditch Hins Hstored.
  destruct (insertLocal_merge_accepted cid tick fields merge Hmerge)
    as (Hk & Hr & _).
  unfold insertLocal. fold cid.
  replace (cid =? 0) with false by (symmetry; now apply Z.eqb_neq).
  rewrite Htick, Hmerge. unfold insertLocal_store.
  rewrite Hditch. cbn [negb]. fold doc. rewrite Hins.
  cbn [Z.eqb negb TRI_ERROR_NO_ERROR]. rewrite Hstored.
  unfold doc, TRI_VOC_ATTRIBUTE_KEY, TRI_VOC_ATTRIBUTE_REV,
    TRI_VOC_ATTRIBUTE_ID.
  rewrite (get_object _ _ _ Hk), (get_object _ _ _ Hr).
  reflexivity.
Qed.

(** Of the caller's object, [documentLocal] and [removeLocal] look at
    nothing but the string [_key] and the parsed value of [_rev]: two
    objects that agree on these get the same treatment, whatever else they
    contain and however the revision is written. *)
Theorem same_key_and_revision_same_outcome (collectionName : string)
    (fields1 fields2 : gmap string Slice) (key : string)
    (options : OperationOptions) (w : W) :
  fields1 !! "_key" = Some (VString key) ->
  fields2 !! "_key" = Some (VString key) ->
  extract_rev (get (VObject fields1) "_rev")
  = extract_rev (get (VObject fields2) "_rev") ->
  documentLocal collectionName (VObject fields1) options w
  = documentLocal collectionName (VObject fields2) options w
  /\ removeLocal collectionName (VObject fields1) options w
     = removeLocal collectionName (VObject fields2) options w.
Proof.
  intros H1 H2 Hrev.
  assert (Hd : documentLocal_extract (VObject fields1)
               = documentLocal_extract (VObject fields2)).
  { unfold documentLocal_extract, TRI_VOC_ATTRIBUTE_KEY,
      TRI_VOC_ATTRIBUTE_REV. cbn [isObject].
    rewrite (get_object _ _ _ H1), (get_object _ _ _ H2), Hrev.
    reflexivity. }
  assert (Hr : removeLocal_extract (VObject fields1)
               = removeLocal_extract (VObject fields2)).
  { unfold removeLocal_extract, TRI_VOC_ATTRIBUTE_KEY,
      TRI_VOC_ATTRIBUTE_REV. cbn [isObject].
    rewrite (get_object _ _ _ H1), (get_object _ _ _ H2), Hrev.
    reflexivity. }
  unfold documentLocal, removeLocal. rewrite Hd, Hr. split; reflexivity.
Qed.

(** A bare key string is handled by [documentLocal] and [removeLocal] as
    the object that has this [_key] and nothing else. *)
Theorem string_key_is_object_key (collectionName : string) (key : string)
    (options : OperationOptions) (w : W) :
  documentLocal collectionName (VString key) options w
  = documentLocal collectionName (VObject {[ "_key" := VString key ]})
      options w
  /\ removeLocal collectionName (VString key) options w
     = removeLocal collectionName (VObject {[ "_key" := VString key ]})
         options w.
Proof.
  unfold documentLocal, removeLocal, documentLocal_extract,
    removeLocal_extract, TRI_VOC_ATTRIBUTE_KEY, TRI_VOC_ATTRIBUTE_REV.
  cbn [isObject isString get].
  rewrite lookup_singleton_eq. rewrite lookup_singleton_ne by discriminate.
  cbn. split; reflexivity.
Qed.

(** The [_id] that [insertLocal] synthesizes identifies the collection:
    two collection ids that fit 64 bits get the same nine bytes only when
    they are the same id. *)
Theorem insertLocal_id_identifies_collection (cid1 cid2 tick1 tick2 : Z)
    (fields1 fields2 merge1 merge2 : gmap string Slice) :
  0 <= cid1 < 2 ^ 64 -> 0 <= cid2 < 2 ^ 64 ->
  insertLocal_merge cid1 tick1 (VObject fields1) = Merge merge1 ->
  insertLocal_merge cid2 tick2 (VObject fields2) = Merge merge2 ->
  merge1 !! "_id" = merge2 !! "_id" ->
  cid1 = cid2.
Proof.
  intros H1 H2 Hm1 Hm2 Hid.
  destruct (insertLocal_merge_accepted _ _ _ _ Hm1) as (_ & _ & Hi1).
  destruct (insertLocal_merge_accepted _ _ _ _ Hm2) as (_ & _ & Hi2).
  rewrite Hi1, Hi2 in Hid.
  assert (Hbytes : storeNumber cid1 8 = storeNumber cid2 8) by congruence.
  apply (f_equal readNumber) in Hbytes.
  rewrite !readNumber_storeNumber in Hbytes.
  change (256 ^ Z.of_nat 8) with (2 ^ 64) in Hbytes.
  rewrite !Z.mod_small in Hbytes by assumption. exact Hbytes.
Qed.

(** Which values the three entry points let through: [document] and
    [insert] only objects, [remove] also a bare key string.  An array, and
    any object on a coordinator, ends in "not implemented"; any other value
    in "document type invalid"; a transaction that is not running fails the
    assertion first.  None of these refusals changes the world. *)
Theorem entry_points_dispatch (collectionName : string) (value : Slice)
    (options : OperationOptions) (w : W) :
  let refuse := fun code : Z =>
    (Thrown (ArangoException code), w) : Outcome OperationResult * W in
  let guarded := fun (accepted : bool)
      (local : Outcome OperationResult * W) =>
    if assertions && negb (isRunning w) then (Thrown FailedAssertion, w)
    else if accepted
    then (if isCoordinator then refuse TRI_ERROR_NOT_IMPLEMENTED else local)
    else if isArray value then refuse TRI_ERROR_NOT_IMPLEMENTED
    else refuse TRI_ERROR_ARANGO_DOCUMENT_TYPE_INVALID in
  document collectionName value options w
  = guarded (isObject value) (documentLocal collectionName value options w)
  /\ insert collectionName value options w
     = guarded (isObject value) (insertLocal collectionName value options w)
  /\ remove collectionName value options w
     = guarded (isObject value || isString value)
         (removeLocal collectionName value options w).
Proof.
  cbn zeta. unfold document, insert, remove.
  destruct (assertions && negb (isRunning w)); [repeat split |].
  destruct value; cbn [isObject isArray isString negb andb orb];
    destruct isCoordinator; repeat split.
Qed.

(** [update] and [replace] never do anything: [replace] always ends in
    "not implemented", and so does [update] unless one of its two values
    is neither an object nor an array, which is "document type invalid"
    (or the transaction is not running, which fails the assertion).  The
    world is never changed. *)
Theorem update_and_replace_only_throw (collectionName : string)
    (oldValue newValue : Slice) (options : OperationOptions) (w : W) :
  replace collectionName oldValue newValue options w
  = (Thrown (ArangoException TRI_ERROR_NOT_IMPLEMENTED), w)
  /\ update collectionName oldValue newValue options w
     = (Thrown
          (if assertions && negb (isRunning w) then FailedAssertion
           else ArangoException
                  (if (isObject oldValue || isArray oldValue)
                      && (isObject newValue || isArray newValue)
                   then TRI_ERROR_NOT_IMPLEMENTED
                   else TRI_ERROR_ARANGO_DOCUMENT_TYPE_INVALID)), w).
Proof.
  split; [reflexivity |]. unfold update, updateCoordinator, updateLocal.
  destruct (assertions && negb (isRunning w)); [reflexivity |].
  destruct oldValue, newValue;
    cbn [isObject isArray negb andb orb];
    try reflexivity; destruct isCoordinator; reflexivity.
Qed.

End Facts.

(** *** At the collection in memory *)

Lemma refused_before_any_access_witness :
  documentLocal "orders" (VString "k1") no_options one_document
  = (Returned (OperationResult_error TRI_ERROR_ARANGO_COLLECTION_NOT_FOUND),
     one_document)
  /\ removeLocal "users" (VObject {[ "_key" := VInt 7 ]}) no_options
       one_document
     = (Returned (OperationResult_error TRI_ERROR_ARANGO_DOCUMENT_KEY_BAD),
        one_document)
  /\ documentLocal "users" (VInt 7) no_options one_document
     = (Returned (OperationResult_error TRI_ERROR_ARANGO_DOCUMENT_KEY_BAD),
        one_document).
Proof.
  split; [| split].
  - apply (refused_before_any_access "orders" (VString "k1") ∅ no_options
             one_document);
      first [discriminate | reflexivity].
  - apply (refused_before_any_access "users" VNull {[ "_key" := VInt 7 ]}
             no_options one_document);
      first [discriminate | reflexivity].
  - apply (refused_before_any_access "users" (VInt 7) ∅ no_options
             one_document);
      first [discriminate | reflexivity].
Defined.

Lemma insertLocal_refuses_before_writing_witness :
  insertLocal "users" (VObject {[ "_key" := VInt 7 ]}) no_options one_document
  = (Returned (OperationResult_error TRI_ERROR_ARANGO_DOCUMENT_KEY_BAD),
     mkMem (store one_document) 6 true)
  /\ insertLocal "users" (VObject {[ "_key" := VString "" ]}) no_options
       one_document
     = (Returned (OperationResult_error TRI_ERROR_ARANGO_DOCUMENT_KEY_BAD),
        mkMem (store one_document) 6 true)
  /\ insertLocal "users" (VObject bob) no_options
       (mkMem (store one_document) 5 false)
     = (Returned (OperationResult_error TRI_ERROR_OUT_OF_MEMORY),
        mkMem (store one_document) 6 false).
Proof.
  split; [| split].
  - refine (proj1 (insertLocal_refuses_before_writing "users"
                     {[ "_key" := VInt 7 ]} no_options one_document
                     (mkMem (store one_document) 6 true) 6 _ eq_refl)
              (VInt 7) eq_refl eq_refl eq_refl).
    discriminate.
  - refine (proj1 (proj2 (insertLocal_refuses_before_writing "users"
                     {[ "_key" := VString "" ]} no_options one_document
                     (mkMem (store one_document) 6 true) 6 _ eq_refl))
              ""%string eq_refl _); discriminate.
  - refine (proj2 (proj2 (insertLocal_refuses_before_writing "users" bob
                     no_options (mkMem (store one_document) 5 false)
                     (mkMem (store one_document) 6 false) 6 _ eq_refl))
              _ (mkMem (store one_document) 6 false) eq_refl eq_refl).
    discriminate.
Defined.

Lemma insertLocal_answers_id_key_rev_witness :
  (insertLocal "users" (VObject bob) no_options one_document).1
  = Returned (OperationResult_ok (VObject
      (<["_key" := VString "k2"]>
       (<["_rev" := VString "6"]>
        (<["_id" := VString "users/k2"]> ∅))))).
Proof.
  pose (merge := <["_id" := VCustom (243 :: storeNumber 7 8)]>
                 (<["_rev" := VString "6"]> (∅ : gmap string Slice))).
  pose (doc := VObject (VPackCollection_merge bob merge)).
  rewrite (insertLocal_answers_id_key_rev "users" bob merge no_options
             one_document (mkMem (store one_document) 6 true)
             (mkMem (store one_document) 6 true)
             (mkMem (<["k2" := mkMptr 6 doc]> (store one_document)) 6 true)
             6 (mkMptr 6 doc));
    [reflexivity | discriminate | reflexivity ..].
Defined.

Lemma same_key_and_revision_same_outcome_witness :
  documentLocal "users" (VObject (k1_expecting (VString "5"))) no_options
    one_document
  = documentLocal "users"
      (VObject (<["colour" := VString "red"]> (k1_expecting (VUInt 5))))
      no_options one_document
  /\ removeLocal "users" (VObject (k1_expecting (VString "5"))) no_options
       one_document
     = removeLocal "users"
         (VObject (<["colour" := VString "red"]> (k1_expecting (VUInt 5))))
         no_options one_document.
Proof.
  apply (same_key_and_revision_same_outcome "users"
           (k1_expecting (VString "5"))
           (<["colour" := VString "red"]> (k1_expecting (VUInt 5)))
           "k1" no_options one_document); reflexivity.
Defined.

Lemma insertLocal_id_identifies_collection_witness : 7 = 7.
Proof.
  apply (insertLocal_id_identifies_collection 7 7 6 9 bob ∅
           (<["_id" := VCustom (243 :: storeNumber 7 8)]>
            (<["_rev" := VString "6"]> ∅))
           (<["_id" := VCustom (243 :: storeNumber 7 8)]>
            (<["_rev" := VString "9"]>
             (<["_key" := VString "9"]> ∅))));
    [lia | lia | reflexivity | reflexivity | reflexivity].
Defined.

End CrudMore.
